(** * PDFconverter: the ECG report censor and the ECG format sorter

    A shallow embedding of the two scripts of the repository,

    - [PDF2JSON/separate-formats.py]  (module [SeparateFormats]) and
    - [Censoring-Script/pdf_censor.py] (module [PdfCensor]),

    together with the parts of the Python runtime they call: [str]
    methods, [posixpath], the three regular expressions handed to [re],
    the [fitz] (PyMuPDF) document interface and the file operations of
    [os] and [shutil].

    Conventions of the model.
    - A Python [str] is a Rocq [string].  Character classes ([\s], [\w],
      [\d], [str.upper], [str.strip], [str.lower]) are the ASCII part of
      Python's tables; characters above 127 are kept as they are and
      belong to no class.
    - A Python exception is a value [Raise e] of the type [result];
      [try]/[except Exception] is a [match] on it.
    - Page coordinates (Python floats) are exact rationals [Q].
    - The file system is explicit state: a finite map from path to file
      and a set of directories. *)

From Stdlib Require Import ZArith QArith Ascii String Bool Lia.
From stdpp Require Import gmap strings list.


Local Open Scope Z_scope.

(** ** Exceptions *)

Inductive exn : Type :=
| ReError               (* re.error: look-behind requires fixed-width pattern *)
| FileNotFoundError     (* open of a path that is no file *)
| FileDataError         (* fitz: the file is not a PDF document *)
| NotADirectoryError    (* os.listdir of a path that is a file *)
| SameFileError.        (* shutil: source and destination are one file *)

Inductive result (A : Type) : Type :=
| Ok (a : A)
| Raise (e : exn).
Arguments Ok {A} a.
Arguments Raise {A} e.

Global Instance result_ret : MRet result := fun A a => Ok a.

Global Instance result_bind : MBind result := fun A B k r =>
  match r with
  | Ok a => k a
  | Raise e => Raise e
  end.

Global Instance result_fmap : FMap result := fun A B f r =>
  match r with
  | Ok a => Ok (f a)
  | Raise e => Raise e
  end.

(** ** Python [str] *)

Module PyStr.

Definition ord (c : ascii) : Z := Z.of_nat (nat_of_ascii c).

Definition between (lo hi : Z) (c : ascii) : bool :=
  (lo <=? ord c) && (ord c <=? hi).

(** [str.isspace] on ASCII: TAB..CR, FS..US and the blank. *)
Definition isspace (c : ascii) : bool := between 9 13 c || between 28 32 c.

Definition isdigit (c : ascii) : bool := between 48 57 c.

(** [\w]: letters, digits and the underscore. *)
Definition isword (c : ascii) : bool :=
  between 48 57 c || between 65 90 c || between 97 122 c || (ord c =? 95).

Definition upper_char (c : ascii) : ascii :=
  if between 97 122 c then ascii_of_nat (nat_of_ascii c - 32) else c.

Definition lower_char (c : ascii) : ascii :=
  if between 65 90 c then ascii_of_nat (nat_of_ascii c + 32) else c.

Fixpoint upper (s : string) : string :=
  match s with
  | EmptyString => EmptyString
  | String c r => String (upper_char c) (upper r)
  end.

Fixpoint lower (s : string) : string :=
  match s with
  | EmptyString => EmptyString
  | String c r => String (lower_char c) (lower r)
  end.

Definition len (s : string) : Z := Z.of_nat (String.length s).

(** [s.startswith(p)] *)
Fixpoint startswith (p s : string) : bool :=
  match p, s with
  | EmptyString, _ => true
  | String a p', String b s' => Ascii.eqb a b && startswith p' s'
  | String _ _, EmptyString => false
  end.

(** [p in s] *)
Fixpoint contains (p s : string) : bool :=
  startswith p s ||
  match s with
  | EmptyString => false
  | String _ s' => contains p s'
  end.

(** [s[n:]] and [s[:n]] for [n >= 0]. *)
Fixpoint drop (n : nat) (s : string) : string :=
  match n, s with
  | O, _ => s
  | S n', String _ r => drop n' r
  | S _, EmptyString => EmptyString
  end.

Fixpoint take (n : nat) (s : string) : string :=
  match n, s with
  | O, _ => EmptyString
  | S n', String c r => String c (take n' r)
  | S _, EmptyString => EmptyString
  end.

Definition slice_from (i : Z) (s : string) : string := drop (Z.to_nat i) s.
Definition slice_to (i : Z) (s : string) : string := take (Z.to_nat i) s.

(** [s.rfind(c)] for a one-character needle: the last index, or -1. *)
Fixpoint rfind (c : ascii) (s : string) : Z :=
  match s with
  | EmptyString => -1
  | String a r =>
      let k := rfind c r in
      if 0 <=? k then k + 1 else if Ascii.eqb a c then 0 else -1
  end.

(** [s.endswith(p)] *)
Definition endswith (p s : string) : bool :=
  (String.length p <=? String.length s)%nat &&
  String.eqb (drop (String.length s - String.length p) s) p.

Fixpoint lstrip (s : string) : string :=
  match s with
  | EmptyString => EmptyString
  | String c r => if isspace c then lstrip r else s
  end.

Fixpoint rstrip (s : string) : string :=
  match s with
  | EmptyString => EmptyString
  | String c r =>
      match rstrip r with
      | EmptyString => if isspace c then EmptyString else String c EmptyString
      | r' => String c r'
      end
  end.

(** [s.strip()] *)
Definition strip (s : string) : string := rstrip (lstrip s).

(** [s.rstrip('/')] *)
Fixpoint rstrip_char (x : ascii) (s : string) : string :=
  match s with
  | EmptyString => EmptyString
  | String c r =>
      match rstrip_char x r with
      | EmptyString => if Ascii.eqb c x then EmptyString else String c EmptyString
      | r' => String c r'
      end
  end.

(** [sep.join(items)] *)
Fixpoint join (sep : string) (items : list string) : string :=
  match items with
  | [] => EmptyString
  | [x] => x
  | x :: rest => x +:+ sep +:+ join sep rest
  end.

(** Truth value of a string. *)
Definition truthy (s : string) : bool := negb (String.eqb s EmptyString).

End PyStr.

(** ** [posixpath] and [pathlib]

    Paths are strings in the normal form [pathlib] prints: one path for
    one file. *)

Module PosixPath.
Import PyStr.

Definition sep : ascii := "/"%char.
Definition extsep : ascii := "."%char.

Fixpoint all_char (c : ascii) (s : string) : bool :=
  match s with
  | EmptyString => true
  | String a r => Ascii.eqb a c && all_char c r
  end.

(** [i = p.rfind('/') + 1; return p[i:]] *)
Definition basename (p : string) : string :=
  let i := rfind sep p + 1 in
  slice_from i p.

(** [head = p[:i]; if head and head != '/'*len(head): head = head.rstrip('/')] *)
Definition dirname (p : string) : string :=
  let i := rfind sep p + 1 in
  let head := slice_to i p in
  if truthy head && negb (all_char sep head) then rstrip_char sep head else head.

(** [join(a, b)] for one component [b]. *)
Definition join (a b : string) : string :=
  if startswith "/" b then b
  else if negb (truthy a) || endswith "/" a then a +:+ b
  else a +:+ "/" +:+ b.

(** The [while filenameIndex < dotIndex] loop of [genericpath._splitext];
    [n] counts the iterations that are left. *)
Fixpoint splitext_loop (n : nat) (p : string) (filenameIndex dotIndex : Z)
  : option (string * string) :=
  match n with
  | O => None
  | S n' =>
      if negb (String.eqb (slice_to 1 (slice_from filenameIndex p)) ".")
      then Some (slice_to dotIndex p, slice_from dotIndex p)
      else splitext_loop n' p (filenameIndex + 1) dotIndex
  end.

Definition splitext (p : string) : string * string :=
  let sepIndex := rfind sep p in
  let dotIndex := rfind extsep p in
  if sepIndex <? dotIndex then
    let filenameIndex := sepIndex + 1 in
    match splitext_loop (Z.to_nat (dotIndex - filenameIndex)) p filenameIndex dotIndex with
    | Some r => r
    | None => (p, EmptyString)
    end
  else (p, EmptyString).

End PosixPath.

Module PathLib.
Import PyStr.

(** [Path.name] *)
Definition name (p : string) : string := PosixPath.basename p.

(** [Path.suffix]: [i = name.rfind('.')]; the tail from [i] when
    [0 < i < len(name) - 1], else the empty string. *)
Definition suffix (p : string) : string :=
  let n := name p in
  let i := rfind "."%char n in
  if (0 <? i) && (i <? len n - 1) then slice_from i n else EmptyString.

(** [p / child] for a relative one-component [child]. *)
Definition joinpath (p child : string) : string :=
  if String.eqb p "." then child else PosixPath.join p child.

End PathLib.

(** ** The regular expressions of the two scripts *)

Module Re.
Import PyStr.

(** The three patterns [check_graph_titles] builds around the escaped,
    upper-cased title [lit]. *)
Inductive pattern : Type :=
| WordBoundary (lit : string)          (* \bLIT\b *)
| FollowedBy (lit : string)            (* LIT(?=\s|$|:) *)
| PrecededFollowedBy (lit : string).   (* (?<=\s|^)LIT(?=\s|$|:) *)

Definition head (s : string) : option ascii :=
  match s with
  | EmptyString => None
  | String c _ => Some c
  end.

Fixpoint last (s : string) (d : option ascii) : option ascii :=
  match s with
  | EmptyString => d
  | String c r => last r (Some c)
  end.

Definition isword_at (c : option ascii) : bool :=
  match c with
  | Some a => isword a
  | None => false
  end.

(** [\b] between the characters [before] and [after] ([None] at either
    end of the text). *)
Definition boundary (before after : option ascii) : bool :=
  xorb (isword_at before) (isword_at after).

(** [(?=\s|$|:)] in front of the rest [s] of the text. *)
Definition lookahead_end (s : string) : bool :=
  match s with
  | EmptyString => true
  | String c _ => isspace c || Ascii.eqb c ":"%char
  end.

(** Does the pattern match at the current position?  [prev] is the
    character before it, [s] the text from it on.  Only the two
    patterns that compile are matched. *)
Definition match_here (p : pattern) (prev : option ascii) (s : string) : bool :=
  match p with
  | WordBoundary lit =>
      boundary prev (head s) && startswith lit s &&
      boundary (last lit prev) (head (drop (String.length lit) s))
  | FollowedBy lit =>
      startswith lit s && lookahead_end (drop (String.length lit) s)
  | PrecededFollowedBy _ => false
  end.

Definition lit_of (p : pattern) : string :=
  match p with
  | WordBoundary lit | FollowedBy lit | PrecededFollowedBy lit => lit
  end.

(** The left-to-right scan of [findall]: matches do not overlap, so
    after a match the next [skip] characters are passed over. *)
Fixpoint scan (p : pattern) (prev : option ascii) (s : string) (skip : nat)
  : list string :=
  match skip, s with
  | S k, String c r => scan p (Some c) r k
  | S _, EmptyString => []
  | O, String c r =>
      if match_here p prev s
      then lit_of p :: scan p (Some c) r (String.length (lit_of p) - 1)
      else scan p (Some c) r O
  | O, EmptyString =>
      if match_here p prev s then [lit_of p] else []
  end.

(** [re.compile]: a look-behind must have one width, and [\s|^] has
    two (one character or none). *)
Definition compile (p : pattern) : result pattern :=
  match p with
  | PrecededFollowedBy _ => Raise ReError
  | _ => Ok p
  end.

(** [re.findall(pattern, text)] *)
Definition findall (p : pattern) (text : string) : result (list string) :=
  q ← compile p;
  Ok (scan q None text O).

(** The age pattern of the censor, [\((\d+) años\)]. *)
Fixpoint span_digits (s : string) : string * string :=
  match s with
  | EmptyString => (EmptyString, EmptyString)
  | String c r =>
      if isdigit c
      then let '(ds, rest) := span_digits r in (String c ds, rest)
      else (EmptyString, s)
  end.

Definition age_tail : string := " años)".

Definition match_age_here (s : string) : option string :=
  match s with
  | String "("%char r =>
      let '(ds, rest) := span_digits r in
      if truthy ds && startswith age_tail rest then Some ds else None
  | _ => None
  end.

(** [re.search(r'\((\d+) años\)', text)]: group 1 of the leftmost
    match. *)
Fixpoint search_age (text : string) : option string :=
  match match_age_here text with
  | Some ds => Some ds
  | None =>
      match text with
      | EmptyString => None
      | String _ r => search_age r
      end
  end.

End Re.

(** ** The PDF library ([fitz]) and the file system *)

Module Fitz.

(** [fitz.Rect(x0, y0, x1, y1)] *)
Record Rect : Type := mkRect { x0 : Q; y0 : Q; x1 : Q; y1 : Q }.

(** One block of [page.get_text("dict")]: its type (0 for text) and,
    line by line, the texts of the spans. *)
Record Block : Type := mkBlock { btype : Z; lines : list (list string) }.

(** A call of [page.insert_text]. *)
Record TextInsert : Type := mkTextInsert {
  point : Q * Q;
  inserted_text : string;
  fontsize : Z;
  color : Z * Z * Z;
  rotate : Z
}.

(** A page: what the library reports about it, the redactions applied
    to it and the texts inserted on top. *)
Record Page : Type := mkPage {
  width : Q;
  height : Q;
  get_text : string;                  (* page.get_text() *)
  get_text_clip : Rect -> string;     (* page.get_text("text", clip=r) *)
  blocks : list Block;                (* page.get_text("dict")["blocks"] *)
  redactions : list Rect;
  inserts : list TextInsert
}.

Definition Doc : Type := list Page.

End Fitz.

Module FileSys.
Import PyStr.

Inductive File : Type :=
| PdfFile (doc : Fitz.Doc)
| OtherFile.

Record FS : Type := mkFS {
  files : gmap string File;
  dirs : gset string
}.

Definition isfile (fs : FS) (p : string) : bool := bool_decide (is_Some (files fs !! p)).
Definition isdir (fs : FS) (p : string) : bool := bool_decide (p ∈ dirs fs).

(** [os.path.exists] *)
Definition exists_ (fs : FS) (p : string) : bool := isfile fs p || isdir fs p.

(** [fitz.open(path)] *)
Definition fitz_open (fs : FS) (p : string) : result Fitz.Doc :=
  match files fs !! p with
  | Some (PdfFile doc) => Ok doc
  | Some OtherFile => Raise FileDataError
  | None => Raise FileNotFoundError
  end.

(** [doc.save(path)] *)
Definition save (fs : FS) (p : string) (doc : Fitz.Doc) : FS :=
  mkFS (<[p := PdfFile doc]> (files fs)) (dirs fs).

(** [os.makedirs(d, exist_ok=True)] and [Path.mkdir]: directories can
    always be made. *)
Definition makedirs (fs : FS) (d : string) : FS :=
  mkFS (files fs) ({[d]} ∪ dirs fs).

(** [shutil.copy2(src, dst)] *)
Definition copy2 (fs : FS) (src dst : string) : result FS :=
  let dst := if isdir fs dst then PosixPath.join dst (PosixPath.basename src) else dst in
  match files fs !! src with
  | None => Raise FileNotFoundError
  | Some f =>
      if String.eqb src dst then Raise SameFileError
      else Ok (mkFS (<[dst := f]> (files fs)) (dirs fs))
  end.

(** The names of the files that lie directly in [folder]. *)
Definition entries (fs : FS) (folder : string) : list string :=
  omap (fun '(p, _) =>
          let n := PosixPath.basename p in
          if truthy n && String.eqb (PosixPath.join folder n) p then Some n else None)
       (map_to_list (files fs)).

(** [os.listdir(folder)] *)
Definition listdir (fs : FS) (folder : string) : result (list string) :=
  if isdir fs folder then Ok (entries fs folder)
  else if isfile fs folder then Raise NotADirectoryError
  else Raise FileNotFoundError.

End FileSys.

(** ** Python dictionaries that are walked in insertion order *)

Module Dict.

Fixpoint set {V : Type} (k : string) (v : V) (d : list (string * V)) : list (string * V) :=
  match d with
  | [] => [(k, v)]
  | (k', v') :: r =>
      if String.eqb k' k then (k', v) :: r else (k', v') :: set k v r
  end.

Fixpoint get {V : Type} (k : string) (d : list (string * V)) : option V :=
  match d with
  | [] => None
  | (k', v') :: r => if String.eqb k' k then Some v' else get k r
  end.

(** [Counter.__getitem__]: a missing key counts 0. *)
Definition count (k : string) (d : list (string * Z)) : Z :=
  default 0 (get k d).

End Dict.

(** ** [PDF2JSON/separate-formats.py] *)

Module SeparateFormats.
Import PyStr FileSys.

Definition FORMAT1_TITLES : list (string * Z) :=
  [("I", 1); ("II", 1); ("III", 1); ("V1", 2); ("V2", 1); ("V3", 1);
   ("V4", 1); ("V5", 1); ("V6", 1); ("aVR", 1); ("aVL", 1); ("aVF", 1)].

Definition FORMAT2_TITLES : list (string * Z) :=
  [("I", 1); ("II", 2); ("III", 1); ("V1", 2); ("V2", 1); ("V3", 1);
   ("V4", 1); ("V5", 2); ("V6", 1); ("aVR", 1); ("aVL", 1); ("aVF", 1)].

Definition ECG_FORMATS : list (string * list (string * Z)) :=
  [("format1", FORMAT1_TITLES); ("format2", FORMAT2_TITLES)].

(** The text of one block: each line's spans joined, then a newline. *)
Definition newline : string := String (ascii_of_nat 10) EmptyString.

Definition line_text (spans : list string) : string :=
  fold_left (fun acc span => acc +:+ span) spans EmptyString.

Definition block_text (all_text : string) (block : Fitz.Block) : string :=
  if Fitz.btype block =? 0
  then fold_left (fun acc line => acc +:+ (line_text line +:+ newline))
                 (Fitz.lines block) all_text
  else all_text.

Definition extract_text_from_first_page (fs : FS) (pdf_path : string) : string :=
  if negb (exists_ fs pdf_path) then EmptyString
  else
    match fitz_open fs pdf_path with
    | Ok doc =>
        match doc with
        | [] => EmptyString
        | page :: _ => fold_left block_text (Fitz.blocks page) EmptyString
        end
    | Raise _ => EmptyString
    end.

Record Diagnostics : Type := mkDiagnostics {
  missing_titles : list string;
  unexpected_counts : list (string * (Z * Z));   (* title, (expected, actual) *)
  found_titles : list string
}.

Record Validation : Type := mkValidation {
  is_valid : bool;
  actual_counts : list (string * Z);
  expected_counts : list (string * Z);
  diagnostics : Diagnostics
}.

Definition patterns (title_upper : string) : list Re.pattern :=
  [Re.WordBoundary title_upper; Re.FollowedBy title_upper;
   Re.PrecededFollowedBy title_upper].

(** [for pattern in patterns]: the count of the first pattern that
    matches, [None] when the loop ends with [found] still false. *)
Fixpoint try_patterns (ps : list Re.pattern) (processed_text : string)
  : result (option Z) :=
  match ps with
  | [] => Ok None
  | pattern :: rest =>
      matches ← Re.findall pattern processed_text;
      match matches with
      | _ :: _ => Ok (Some (Z.of_nat (length matches)))
      | [] => try_patterns rest processed_text
      end
  end.

(** The first loop over [expected_titles.items()]. *)
Fixpoint count_titles (titles : list (string * Z)) (processed_text : string)
    (actual_counts : list (string * Z)) : result (list (string * Z)) :=
  match titles with
  | [] => Ok actual_counts
  | (title, _) :: rest =>
      let title_upper := upper title in
      found ← try_patterns (patterns title_upper) processed_text;
      count_titles rest processed_text
        (Dict.set title (default 0 found) actual_counts)
  end.

(** The body of the second loop. *)
Definition analyze (actual_counts : list (string * Z)) (d : Diagnostics)
    (item : string * Z) : Diagnostics :=
  let '(title, expected_count) := item in
  let actual_count := Dict.count title actual_counts in
  if actual_count =? 0 then
    mkDiagnostics (missing_titles d ++ [title]) (unexpected_counts d) (found_titles d)
  else if negb (actual_count =? expected_count) then
    mkDiagnostics (missing_titles d)
      (Dict.set title (expected_count, actual_count) (unexpected_counts d))
      (found_titles d)
  else
    mkDiagnostics (missing_titles d) (unexpected_counts d) (found_titles d ++ [title]).

Definition check_graph_titles (text : string) (expected_titles : list (string * Z))
  : result Validation :=
  let processed_text := upper text in
  actual_counts ← count_titles expected_titles processed_text [];
  let diagnostics :=
    fold_left (analyze actual_counts) expected_titles (mkDiagnostics [] [] []) in
  let is_valid :=
    (length (missing_titles diagnostics) =? 0)%nat &&
    (length (unexpected_counts diagnostics) =? 0)%nat in
  Ok (mkValidation is_valid actual_counts expected_titles diagnostics).

(** The loop of [check_all_formats] over the table of formats, with
    its two variables. *)
Fixpoint check_all_formats_loop (formats : list (string * list (string * Z)))
    (text : string) (matching_format : option string)
    (matching_results : option Validation)
  : result (option string * option Validation) :=
  match formats with
  | [] => Ok (matching_format, matching_results)
  | (format_name, format_titles) :: rest =>
      results ← check_graph_titles text format_titles;
      if is_valid results then
        match matching_format with
        | Some _ => Ok (None, None)
        | None => check_all_formats_loop rest text (Some format_name) (Some results)
        end
      else check_all_formats_loop rest text matching_format matching_results
  end.

(** [check_all_formats] over a given table; the script's table is the
    global [ECG_FORMATS]. *)
Definition check_all_formats_in (formats : list (string * list (string * Z)))
    (text : string) : result (option string * option Validation) :=
  check_all_formats_loop formats text None None.

Definition check_all_formats (text : string)
  : result (option string * option Validation) :=
  check_all_formats_in ECG_FORMATS text.

(** Truth value of [matching_format]. *)
Definition is_match (matching_format : option string) : bool :=
  match matching_format with
  | Some name => truthy name
  | None => false
  end.

(** The diagnostic pass of the verbose branch: every format is checked
    once more (what it prints is not modelled). *)
Fixpoint show_diagnostics (formats : list (string * list (string * Z)))
    (text : string) : result unit :=
  match formats with
  | [] => Ok tt
  | (_, format_titles) :: rest =>
      _ ← check_graph_titles text format_titles;
      show_diagnostics rest text
  end.

Definition validate_ecg_format (fs : FS) (pdf_path : string) (verbose : bool)
  : result (option string * option Validation) :=
  let text := extract_text_from_first_page fs pdf_path in
  '(matching_format, results) ← check_all_formats text;
  _ ← (if verbose && negb (is_match matching_format)
       then show_diagnostics ECG_FORMATS text else Ok tt);
  Ok (matching_format, results).

Record Args : Type := mkArgs {
  input_folder : string;
  output : option string;
  verbose : bool
}.

Record Stats : Type := mkStats { total : Z; correct : Z; incorrect : Z }.

(** The variables the per-file loop of [main] updates. *)
Record LoopState : Type := mkLoopState {
  fs_of : FS;
  stats : Stats;
  format_stats : list (string * Z)
}.

Definition add_correct (s : Stats) : Stats :=
  mkStats (total s) (correct s + 1) (incorrect s).
Definition add_incorrect (s : Stats) : Stats :=
  mkStats (total s) (correct s) (incorrect s + 1).

Section Loop.
Variable args : Args.
Variable incorrect_path : string.
Variable format_paths : list (string * string).

(** The [try] block for one file: the state it leaves and whether it
    ended by an exception. *)
Definition try_file (st : LoopState) (pdf_file : string) : LoopState * result unit :=
  match validate_ecg_format (fs_of st) pdf_file (verbose args) with
  | Raise e => (st, Raise e)
  | Ok (matching_format, _) =>
      if is_match matching_format then
        let name := default EmptyString matching_format in
        let st1 := mkLoopState (fs_of st) (add_correct (stats st))
                     (Dict.set name (Dict.count name (format_stats st) + 1)
                        (format_stats st)) in
        let dest := PathLib.joinpath (default EmptyString (Dict.get name format_paths))
                      (PathLib.name pdf_file) in
        match copy2 (fs_of st1) pdf_file dest with
        | Ok fs' => (mkLoopState fs' (stats st1) (format_stats st1), Ok tt)
        | Raise e => (st1, Raise e)
        end
      else
        let st1 := mkLoopState (fs_of st) (add_incorrect (stats st)) (format_stats st) in
        let dest := PathLib.joinpath incorrect_path (PathLib.name pdf_file) in
        match copy2 (fs_of st1) pdf_file dest with
        | Ok fs' => (mkLoopState fs' (stats st1) (format_stats st1), Ok tt)
        | Raise e => (st1, Raise e)
        end
  end.

(** One turn of the loop: the [try] block and, on an exception, the
    handler with its own guarded copy. *)
Definition process_file (st : LoopState) (pdf_file : string) : LoopState :=
  match try_file st pdf_file with
  | (st1, Ok _) => st1
  | (st1, Raise _) =>
      let st2 := mkLoopState (fs_of st1) (add_incorrect (stats st1)) (format_stats st1) in
      let dest := PathLib.joinpath incorrect_path (PathLib.name pdf_file) in
      match copy2 (fs_of st2) pdf_file dest with
      | Ok fs' => mkLoopState fs' (stats st2) (format_stats st2)
      | Raise _ => st2
      end
  end.

End Loop.

(** What [main] leaves behind: its return code, the counts it prints
    and the file system. *)
Record Outcome : Type := mkOutcome {
  code : Z;
  final_stats : Stats;
  final_format_stats : list (string * Z);
  final_fs : FS
}.

Definition main (script_dir : string) (args : Args) (fs : FS) : Outcome :=
  let input_path := input_folder args in
  if negb (isdir fs input_path) then
    mkOutcome 1 (mkStats 0 0 0) [] fs
  else
    let output_path :=
      match output args with
      | Some o => if truthy o then o else script_dir
      | None => script_dir
      end in
    let correct_path := PathLib.joinpath output_path "Correct" in
    let incorrect_path := PathLib.joinpath output_path "Incorrect" in
    let fs1 := makedirs (makedirs fs correct_path) incorrect_path in
    let '(fs2, format_paths) :=
      fold_left (fun '(f, paths) '(format_name, _) =>
                   let format_path := PathLib.joinpath correct_path format_name in
                   (makedirs f format_path, Dict.set format_name format_path paths))
                ECG_FORMATS (fs1, []) in
    let pdf_files :=
      map (PathLib.joinpath input_path)
        (filter (fun n => String.eqb (lower (PathLib.suffix n)) ".pdf" = true)
                (entries fs2 input_path)) in
    let stats := mkStats (Z.of_nat (length pdf_files)) 0 0 in
    let format_stats := map (fun '(format_name, _) => (format_name, 0)) ECG_FORMATS in
    let st := fold_left (process_file args incorrect_path format_paths) pdf_files
                (mkLoopState fs2 stats format_stats) in
    mkOutcome 0 (SeparateFormats.stats st) (SeparateFormats.format_stats st) (fs_of st).

End SeparateFormats.

(** ** [Censoring-Script/pdf_censor.py] *)

Module PdfCensor.
Import PyStr FileSys.

(** One entry of [extracted_info]. *)
Record Info : Type := mkInfo {
  rect : Fitz.Rect;
  gender : option string;
  age : option string
}.

(** Truth value of an optional string ([None] and [""] are false). *)
Definition is_set (o : option string) : bool :=
  match o with
  | Some s => truthy s
  | None => false
  end.

(** Lines 24-34: the name of the output file. *)
Definition output_path_of (pdf_path : string) (output_dir : option string) : string :=
  let base_name := PosixPath.basename pdf_path in
  let '(base_name_no_ext, ext) := PosixPath.splitext base_name in
  if is_set output_dir then
    PosixPath.join (default EmptyString output_dir)
      (base_name_no_ext +:+ "_censored" +:+ ext)
  else
    let dir_name := PosixPath.dirname pdf_path in
    PosixPath.join dir_name (base_name_no_ext +:+ "_censored" +:+ ext).

(** [all_rectangles]: the rectangle lists of the dictionary, one after
    the other. *)
Definition all_rectangles_of (coordinates_dict : list (Z * list (list Q)))
  : list (list Q) :=
  fold_left (fun acc '(_, rect_list) => (acc ++ rect_list)%list) coordinates_dict [].

Definition extract_gender (text : string) : option string :=
  if contains "Masculino" text then Some "Masculino"
  else if contains "Femenino" text then Some "Femenino"
  else None.

Definition extract_age (text : string) : option string :=
  match Re.search_age text with
  | Some digits => Some ("(" +:+ digits +:+ " años)")
  | None => None
  end.

(** First pass: the text of every rectangle, read before redaction.
    [i] is the index [enumerate] gives the rectangle. *)
Fixpoint first_pass (page : Fitz.Page) (page_width : Q) (i : nat)
    (rects : list (list Q)) (extracted_info : list (nat * Info))
  : list (nat * Info) :=
  match rects with
  | [] => extracted_info
  | r :: rest =>
      match r with
      | [x1; y1; x2; y2] =>
          let y1_transformed := (page_width - y2)%Q in
          let y2_transformed := (page_width - y1)%Q in
          let redact_rect := Fitz.mkRect x1 y1_transformed x2 y2_transformed in
          let text := Fitz.get_text_clip page redact_rect in
          let gender := extract_gender text in
          let age := extract_age text in
          if is_set gender || is_set age then
            first_pass page page_width (S i) rest
              (extracted_info ++ [(i, mkInfo redact_rect gender age)])
          else first_pass page page_width (S i) rest extracted_info
      | _ => first_pass page page_width (S i) rest extracted_info
      end
  end.

(** Second pass: the redaction annotations added to the page. *)
Fixpoint second_pass (page_width : Q) (rects : list (list Q))
    (annots : list Fitz.Rect) : list Fitz.Rect :=
  match rects with
  | [] => annots
  | r :: rest =>
      match r with
      | [x1; y1; x2; y2] =>
          let y1_transformed := (page_width - y2)%Q in
          let y2_transformed := (page_width - y1)%Q in
          let redact_rect := Fitz.mkRect x1 y1_transformed x2 y2_transformed in
          second_pass page_width rest (annots ++ [redact_rect])
      | _ => second_pass page_width rest annots
      end
  end.

(** Third pass: the texts written back on the page. *)
Definition third_pass (extracted_info : list (nat * Info)) : list Fitz.TextInsert :=
  fold_left (fun acc '(_, info) =>
               let text_items :=
                 ((if is_set (gender info) then [default EmptyString (gender info)] else []) ++
                  (if is_set (age info) then [default EmptyString (age info)] else []))%list in
               match text_items with
               | [] => acc
               | _ =>
                   let text := join " " text_items in
                   (acc ++ [Fitz.mkTextInsert (90%Q, 784%Q) text 10 (1, 1, 1) 90])%list
               end)
            extracted_info [].

(** The body of the [try] block, on the opened document: [None] for an
    early [return None], else the document that is saved. *)
Definition censor_doc (doc : Fitz.Doc) (coordinates_dict : list (Z * list (list Q)))
    (include_info : bool) : option Fitz.Doc :=
  match doc with
  | [] => None
  | page :: others =>
      let page_text := strip (Fitz.get_text page) in
      if negb (truthy page_text) then None
      else
        let is_multi_page := (1 <? length doc)%nat in
        let page_width := Fitz.width page in
        let all_rectangles := all_rectangles_of coordinates_dict in
        let extracted_info := first_pass page page_width 0 all_rectangles [] in
        match extracted_info with
        | [] => None
        | _ =>
            let rest := if is_multi_page then [] else others in
            let annots := second_pass page_width all_rectangles [] in
            let texts := if include_info then third_pass extracted_info else [] in
            Some (Fitz.mkPage (Fitz.width page) (Fitz.height page)
                    (Fitz.get_text page) (Fitz.get_text_clip page) (Fitz.blocks page)
                    (Fitz.redactions page ++ annots) (Fitz.inserts page ++ texts)
                  :: rest)
        end
  end.

Definition censor_pdf (fs : FS) (pdf_path : string)
    (coordinates_dict : list (Z * list (list Q))) (output_dir : option string)
    (include_info : bool) : FS * result (option string) :=
  let output_path := output_path_of pdf_path output_dir in
  let fs1 := if is_set output_dir
             then makedirs fs (default EmptyString output_dir) else fs in
  match fitz_open fs1 pdf_path with
  | Raise e => (fs1, Raise e)
  | Ok doc =>
      match censor_doc doc coordinates_dict include_info with
      | None => (fs1, Ok None)
      | Some redacted => (save fs1 output_path redacted, Ok (Some output_path))
      end
  end.

(** The lists [process_pdf_folder] builds, and the file system. *)
Record FolderState : Type := mkFolderState {
  fs_of : FS;
  processed_files : list string;
  failed_files : list string
}.

Section Loop.
Variable folder_path : string.
Variable coordinates_dict : list (Z * list (list Q)).
Variable output_dir : string.
Variable include_info : bool.

Definition failed_dir : string := PosixPath.join output_dir "Failed".

(** The [try] block for one file. *)
Definition try_file (st : FolderState) (file_name : string)
  : FolderState * result unit :=
  let pdf_path := PosixPath.join folder_path file_name in
  match censor_pdf (fs_of st) pdf_path coordinates_dict (Some output_dir) include_info with
  | (fs1, Raise e) => (mkFolderState fs1 (processed_files st) (failed_files st), Raise e)
  | (fs1, Ok output_path) =>
      if is_set output_path then
        (mkFolderState fs1
           (processed_files st ++ [default EmptyString output_path])
           (failed_files st), Ok tt)
      else
        let failed := (failed_files st ++ [file_name])%list in
        let fs2 := makedirs fs1 failed_dir in
        let failed_file_path := PosixPath.join failed_dir file_name in
        match copy2 fs2 pdf_path failed_file_path with
        | Ok fs3 => (mkFolderState fs3 (processed_files st) failed, Ok tt)
        | Raise e => (mkFolderState fs2 (processed_files st) failed, Raise e)
        end
  end.

(** One turn of the loop; [Raise] is an exception that leaves the
    handler and with it the loop. *)
Definition process_file (st : FolderState) (file_name : string) : result FolderState :=
  if endswith ".pdf" (lower file_name) then
    match try_file st file_name with
    | (st1, Ok _) => Ok st1
    | (st1, Raise _) =>
        let pdf_path := PosixPath.join folder_path file_name in
        let failed := (failed_files st1 ++ [file_name])%list in
        let fs2 := makedirs (fs_of st1) failed_dir in
        let failed_file_path := PosixPath.join failed_dir file_name in
        fs3 ← copy2 fs2 pdf_path failed_file_path;
        Ok (mkFolderState fs3 (processed_files st1) failed)
    end
  else Ok st.

Fixpoint process_files (st : FolderState) (file_names : list string)
  : result FolderState :=
  match file_names with
  | [] => Ok st
  | file_name :: rest =>
      st1 ← process_file st file_name;
      process_files st1 rest
  end.

End Loop.

(** [process_pdf_folder]; beside the list it returns, the model keeps
    the list of failed files it prints. *)
Definition process_pdf_folder (fs : FS) (folder_path : string)
    (coordinates_dict : list (Z * list (list Q))) (output_dir : option string)
    (include_info : bool) : result FolderState :=
  let output_dir :=
    match output_dir with
    | None => PosixPath.join (PosixPath.dirname folder_path) "Censored PDFs"
    | Some d => d
    end in
  let fs1 := makedirs fs output_dir in
  if negb (exists_ fs1 folder_path) then Ok (mkFolderState fs1 [] [])
  else
    file_names ← listdir fs1 folder_path;
    process_files folder_path coordinates_dict output_dir include_info
      (mkFolderState fs1 [] []) file_names.

(** The default coordinates of the command line. *)
Definition coordinates : list (Z * list (list Q)) :=
  [(0, [[39.2821; 7.81606; 95.3558; 107.861]%Q]);
   (1, [[21.7321; 7.99649; 37.7421; 268.27]%Q]);
   (2, [[568.015; 688.962; 584.025; 767.536]%Q])].

End PdfCensor.

(** ** What the specification says, in its own words

    Definitions that follow the wording of the specification, to be
    compared with the functions of the scripts. *)

Module Spec.
Import PyStr.

(** The literal [p] occurs in the text [s]. *)
Definition occurs_in (p s : string) : Prop :=
  exists a b : string, s = a +:+ p +:+ b.

(** The region of a rectangle (x1, y1, x2, y2) on a page of width [W]:
    the y-extent reflected against the width; no region for a tuple
    that has not four numbers. *)
Definition mirrored (W : Q) (r : list Q) : option Fitz.Rect :=
  match r with
  | [x1; y1; x2; y2] => Some (Fitz.mkRect x1 (W - y2) x2 (W - y1))
  | _ => None
  end.

(** A region yields information when its text has one of the two
    gender literals or a match of the age pattern. *)
Definition yields_info (page : Fitz.Page) (region : Fitz.Rect) : bool :=
  let text := Fitz.get_text_clip page region in
  contains "Masculino" text || contains "Femenino" text ||
  bool_decide (is_Some (Re.search_age text)).

(** The three reasons for the censor to give up on a document. *)
Definition gives_up (doc : Fitz.Doc) (rects : list (list Q)) : bool :=
  match doc with
  | [] => true
  | page :: _ =>
      String.eqb (strip (Fitz.get_text page)) EmptyString ||
      forallb (fun region => negb (yields_info page region))
              (omap (mirrored (Fitz.width page)) rects)
  end.

(** The entry of [extracted_info] for rectangle number [i]. *)
Definition info_of (page : Fitz.Page) (W : Q) (i : nat) (r : list Q)
  : option (nat * PdfCensor.Info) :=
  region ← mirrored W r;
  if yields_info page region then
    let text := Fitz.get_text_clip page region in
    Some (i, PdfCensor.mkInfo region (PdfCensor.extract_gender text)
               (PdfCensor.extract_age text))
  else None.

(** The entries for the rectangles numbered from [i] on. *)
Fixpoint infos_from (page : Fitz.Page) (W : Q) (i : nat) (rects : list (list Q))
  : list (nat * PdfCensor.Info) :=
  match rects with
  | [] => []
  | r :: rest =>
      match info_of page W i r with
      | Some entry => entry :: infos_from page W (S i) rest
      | None => infos_from page W (S i) rest
      end
  end.

(** How many files [process_pdf_folder] has counted, as processed or
    as failed. *)
Definition counted (st : PdfCensor.FolderState) : nat :=
  (length (PdfCensor.processed_files st) + length (PdfCensor.failed_files st))%nat.

(** The names a folder driver takes for PDF files. *)
Definition is_pdf_name (file_name : string) : bool :=
  endswith ".pdf" (lower file_name).

End Spec.

(** ** Sample inputs *)

Module Samples.
Import FileSys.

(** The lead labels of a format-1 report, and the same with a second
    [I]. *)
Definition format1_text : string := "I II III V1 V1 V2 V3 V4 V5 V6 aVR aVL aVF".
Definition other_text : string := "I I II III V1 V1 V2 V3 V4 V5 V6 aVR aVL aVF".

(** A report whose last lead label, aVF, is missing. *)
Definition missing_avf_text : string := "I II III V1 V1 V2 V3 V4 V5 V6 aVR aVL".

(** A page whose text is [t] wherever one looks. *)
Definition page_of (t : string) : Fitz.Page :=
  Fitz.mkPage 595 842 t (fun _ => t) [Fitz.mkBlock 0 [[t]]] [] [].

(** A table with the first template under two names. *)
Definition twin_formats : list (string * list (string * Z)) :=
  [("format1", SeparateFormats.FORMAT1_TITLES);
   ("format1b", SeparateFormats.FORMAT1_TITLES)].

(** What [check_graph_titles] returns for the format-1 report and the
    first template. *)
Definition format1_validation : SeparateFormats.Validation :=
  Eval vm_compute in
    match SeparateFormats.check_graph_titles format1_text
            SeparateFormats.FORMAT1_TITLES with
    | Ok r => r
    | Raise _ =>
        SeparateFormats.mkValidation false [] []
          (SeparateFormats.mkDiagnostics [] [] [])
    end.

(** The redacted copy of a one-page report with patient data. *)
Definition censored_doc : Fitz.Doc :=
  Eval vm_compute in
    default [] (PdfCensor.censor_doc [page_of "Masculino (45 años)"]
                  PdfCensor.coordinates true).

(** What [check_graph_titles] returns for the report with a second [I]
    and the first template, and for the format-1 report and the second
    template. *)
Definition other_validation : SeparateFormats.Validation :=
  Eval vm_compute in
    match SeparateFormats.check_graph_titles other_text
            SeparateFormats.FORMAT1_TITLES with
    | Ok r => r
    | Raise _ =>
        SeparateFormats.mkValidation false [] []
          (SeparateFormats.mkDiagnostics [] [] [])
    end.

Definition format1_as_format2 : SeparateFormats.Validation :=
  Eval vm_compute in
    match SeparateFormats.check_graph_titles format1_text
            SeparateFormats.FORMAT2_TITLES with
    | Ok r => r
    | Raise _ =>
        SeparateFormats.mkValidation false [] []
          (SeparateFormats.mkDiagnostics [] [] [])
    end.

(** A page with an image block between two text blocks, and a file of
    two pages that starts with it. *)
Definition mixed_page : Fitz.Page :=
  Fitz.mkPage 595 842 "I aVR" (fun _ => EmptyString)
    [Fitz.mkBlock 0 [["I"; " "]; ["aV"; "R"]]; Fitz.mkBlock 1 [["x"]];
     Fitz.mkBlock 0 [["V1"]]] [] [].

Definition two_page_fs : FS :=
  mkFS {["in/c.pdf" := PdfFile [mixed_page; page_of "II"]]} {["in"]}.


(** The first entry of [extracted_info] for that report. *)
Definition first_entry : nat * PdfCensor.Info :=
  Eval vm_compute in
    hd (0%nat, PdfCensor.mkInfo (Fitz.mkRect 0 0 0 0) None None)
       (PdfCensor.first_pass (page_of "Masculino (45 años)") 595 0
          (PdfCensor.all_rectangles_of PdfCensor.coordinates) []).

(** The sorter's own output folder, holding one format-1 report. *)
Definition sorted_fs : FS :=
  mkFS {["out/Correct/format1/a.pdf" := PdfFile [page_of format1_text]]}
       {["out/Correct/format1"]}.

Definition sorted_args : SeparateFormats.Args :=
  SeparateFormats.mkArgs "out/Correct/format1" (Some "out") false.

(** The censor's folder of failed files: a scanned report (no text)
    and a report with patient data. *)
Definition failed_fs : FS :=
  mkFS {["out/Failed/a.pdf" := PdfFile [page_of ""];
         "out/Failed/b.pdf" := PdfFile [page_of "Masculino (45 años)"]]}
       {["out"; "out/Failed"]}.

(** A folder with the same two reports, censored into [out]. *)
Definition inbox_fs : FS :=
  mkFS {["in/a.pdf" := PdfFile [page_of ""];
         "in/b.pdf" := PdfFile [page_of "Masculino (45 años)"]]}
       {["in"]}.

(** What the first turn of the loop of [process_pdf_folder] leaves. *)
Definition inbox_after_a : PdfCensor.FolderState :=
  Eval vm_compute in
    match PdfCensor.process_file "in" PdfCensor.coordinates "out" true
            (PdfCensor.mkFolderState (makedirs inbox_fs "out") [] []) "a.pdf" with
    | Ok st => st
    | Raise _ => PdfCensor.mkFolderState inbox_fs [] []
    end.

(** What [process_pdf_folder] leaves after that folder. *)
Definition inbox_done : PdfCensor.FolderState :=
  Eval vm_compute in
    match PdfCensor.process_pdf_folder inbox_fs "in" PdfCensor.coordinates
            (Some "out") true with
    | Ok st => st
    | Raise _ => PdfCensor.mkFolderState inbox_fs [] []
    end.

End Samples.

(** ** Notions used to state further properties *)

Module Notions.
Import PyStr.

(** The spans of a line, one after the other. *)
Definition spans_text (spans : list string) : string :=
  fold_right String.append EmptyString spans.

(** The lines of a block, each closed by a newline. *)
Fixpoint text_of_lines (ls : list (list string)) : string :=
  match ls with
  | [] => EmptyString
  | l :: rest => spans_text l +:+ SeparateFormats.newline +:+ text_of_lines rest
  end.

(** The text of the text blocks (type 0) of a page, in order. *)
Fixpoint text_of_blocks (bs : list Fitz.Block) : string :=
  match bs with
  | [] => EmptyString
  | b :: rest =>
      (if Fitz.btype b =? 0 then text_of_lines (Fitz.lines b) else EmptyString)
      +:+ text_of_blocks rest
  end.

(** The sum of the counts of a dictionary. *)
Definition dict_sum (d : list (string * Z)) : Z :=
  fold_right (fun kv acc => kv.2 + acc) 0 d.


(** The label written back for an entry of [extracted_info]: gender,
    blank, age; or the one that is there. *)
Definition overlay_text (info : PdfCensor.Info) : string :=
  match PdfCensor.gender info, PdfCensor.age info with
  | Some g, Some a => g +:+ " " +:+ a
  | Some g, None => g
  | None, Some a => a
  | None, None => EmptyString
  end.

(** The call of [insert_text] for an entry: white, size 10, turned by
    90 degrees, at the fixed point (90, 784). *)
Definition overlay_of (info : PdfCensor.Info) : Fitz.TextInsert :=
  Fitz.mkTextInsert (90%Q, 784%Q) (overlay_text info) 10 (1, 1, 1) 90.

(** An entry as the first pass keeps them: it has a gender or an age,
    and what it has is not empty. *)
Definition entry_ok (entry : nat * PdfCensor.Info) : Prop :=
  (PdfCensor.is_set (PdfCensor.gender entry.2)
   || PdfCensor.is_set (PdfCensor.age entry.2) = true) /\
  (PdfCensor.gender entry.2 = None \/
   exists g, PdfCensor.gender entry.2 = Some g /\ truthy g = true) /\
  (PdfCensor.age entry.2 = None \/
   exists a, PdfCensor.age entry.2 = Some a /\ truthy a = true).

End Notions.

(** * Properties *)

(** ** The exception monad *)

Lemma bind_Ok {A B : Type} (r : result A) (k : A -> result B) (b : B) :
  (x ← r; k x) = Ok b -> exists a, r = Ok a /\ k a = Ok b.
Proof.
  destruct r as [a|e]; intros H.
  - exists a. split; [reflexivity | exact H].
  - discriminate H.
Qed.

Ltac inv_bind H :=
  let a := fresh "a" in
  let Ha := fresh "Ha" in
  apply bind_Ok in H; destruct H as (a & Ha & H).

(** ** The format classifier *)

Section Classifier.
Import SeparateFormats.

(** The two loop variables of [check_all_formats] are set and cleared
    together. *)
Lemma check_all_formats_loop_shape formats text :
  forall mf mr out,
    (mf = None <-> mr = None) ->
    check_all_formats_loop formats text mf mr = Ok out ->
    (out.1 = None <-> out.2 = None).
Proof.
  induction formats as [|[format_name format_titles] rest IH];
    intros mf mr out Hinv H; simpl in H.
  - injection H as <-. exact Hinv.
  - inv_bind H. destruct (is_valid a).
    + destruct mf.
      * injection H as <-. simpl. tauto.
      * apply IH in H; [exact H | split; discriminate].
    + apply IH in H; assumption.
Qed.

Lemma validate_ecg_format_result fs pdf_path verbose out :
  validate_ecg_format fs pdf_path verbose = Ok out ->
  check_all_formats (extract_text_from_first_page fs pdf_path) = Ok out.
Proof.
  unfold validate_ecg_format. intros H. inv_bind H.
  destruct a as [mf res]. inv_bind H. injection H as <-. exact Ha.
Qed.

(** *** Dictionaries *)

Lemma dict_get_set_eq {V : Type} (k : string) (v : V) d :
  Dict.get k (Dict.set k v d) = Some v.
Proof.
  induction d as [|[k' v'] r IH]; simpl.
  - rewrite String.eqb_refl. reflexivity.
  - destruct (String.eqb k' k) eqn:E; simpl; rewrite E; [reflexivity | exact IH].
Qed.

Lemma dict_get_set_ne {V : Type} (k k' : string) (v : V) d :
  k <> k' -> Dict.get k' (Dict.set k v d) = Dict.get k' d.
Proof.
  intros Hne. induction d as [|[k0 v0] r IH]; simpl.
  - apply String.eqb_neq in Hne. rewrite Hne. reflexivity.
  - destruct (String.eqb k0 k) eqn:E; simpl.
    + apply String.eqb_eq in E. subst k0.
      apply String.eqb_neq in Hne. rewrite Hne. reflexivity.
    + destruct (String.eqb k0 k'); [reflexivity | exact IH].
Qed.

Lemma dict_set_not_nil {V : Type} (k : string) (v : V) d : Dict.set k v d <> [].
Proof. destruct d as [|[k' v'] r]; simpl; [|destruct (String.eqb k' k)]; discriminate. Qed.

(** *** Counting one label

    The third pattern does not compile, so the loop over the patterns
    has two ways out only: a count of at least one from the first or
    the second pattern, or the error of the third. *)

Lemma try_patterns_first title_upper text n :
  Re.findall (Re.WordBoundary title_upper) text = Ok n ->
  n <> [] ->
  try_patterns (patterns title_upper) text = Ok (Some (Z.of_nat (length n))).
Proof.
  intros H Hn. unfold patterns. cbn [try_patterns]. rewrite H. simpl.
  destruct n; [contradiction | reflexivity].
Qed.

Lemma try_patterns_second title_upper text n :
  Re.findall (Re.WordBoundary title_upper) text = Ok [] ->
  Re.findall (Re.FollowedBy title_upper) text = Ok n ->
  n <> [] ->
  try_patterns (patterns title_upper) text = Ok (Some (Z.of_nat (length n))).
Proof.
  intros H1 H2 Hn. unfold patterns. cbn [try_patterns]. rewrite H1. cbn [mbind result_bind try_patterns].
  rewrite H2. simpl. destruct n; [contradiction | reflexivity].
Qed.

Lemma try_patterns_third title_upper text :
  Re.findall (Re.WordBoundary title_upper) text = Ok [] ->
  Re.findall (Re.FollowedBy title_upper) text = Ok [] ->
  try_patterns (patterns title_upper) text = Raise ReError.
Proof.
  intros H1 H2. unfold patterns. cbn [try_patterns]. rewrite H1. cbn [mbind result_bind try_patterns].
  rewrite H2. reflexivity.
Qed.

Lemma try_patterns_found title_upper text found :
  try_patterns (patterns title_upper) text = Ok found ->
  exists c, found = Some c /\ 1 <= c.
Proof.
  unfold patterns. simpl try_patterns.
  destruct (Re.scan (Re.WordBoundary title_upper) None text 0) as [|m ms] eqn:E1; simpl.
  - destruct (Re.scan (Re.FollowedBy title_upper) None text 0) as [|m ms] eqn:E2; simpl.
    + discriminate.
    + intros [= <-]. eexists. split; [reflexivity | lia].
  - intros [= <-]. eexists. split; [reflexivity | lia].
Qed.

(** *** The two loops of [check_graph_titles] *)

Lemma count_titles_recorded titles processed_text :
  forall acc d,
    count_titles titles processed_text acc = Ok d ->
    (forall t c, Dict.get t acc = Some c ->
                 try_patterns (patterns (PyStr.upper t)) processed_text = Ok (Some c)) ->
    (forall t c, Dict.get t d = Some c ->
                 try_patterns (patterns (PyStr.upper t)) processed_text = Ok (Some c)) /\
    (forall t, t ∈ titles.*1 \/ is_Some (Dict.get t acc) -> is_Some (Dict.get t d)).
Proof.
  induction titles as [|[title e] rest IH]; intros acc d H Hacc; simpl in H.
  - injection H as <-. split; [exact Hacc |].
    intros t [Hin | Hs]; [inversion Hin | exact Hs].
  - inv_bind H. rename a into found.
    destruct (try_patterns_found _ _ _ Ha) as (c & -> & _). simpl in H.
    apply IH in H.
    + destruct H as [H1 H2]. split; [exact H1 |].
      intros t Ht. apply H2.
      destruct (decide (title = t)) as [<- | Hne].
      * right. rewrite dict_get_set_eq. eauto.
      * destruct Ht as [Hin | Hs].
        -- left. simpl in Hin. apply elem_of_cons in Hin as [-> | Hin]; [congruence | exact Hin].
        -- right. rewrite dict_get_set_ne by exact Hne. exact Hs.
    + intros t c'. destruct (decide (title = t)) as [<- | Hne].
      * rewrite dict_get_set_eq. intros [= <-]. exact Ha.
      * rewrite dict_get_set_ne by exact Hne. apply Hacc.
Qed.

Lemma analyze_fold actual titles :
  forall d,
    Forall (fun item : string * Z => Dict.count item.1 actual <> 0) titles ->
    missing_titles (fold_left (analyze actual) titles d) = missing_titles d /\
    (unexpected_counts (fold_left (analyze actual) titles d) = [] <->
     unexpected_counts d = [] /\
     Forall (fun item : string * Z => Dict.count item.1 actual = item.2) titles).
Proof.
  induction titles as [|[t e] rest IH]; intros d Hpos; simpl.
  - split; [reflexivity |]. split; [intros H; split; [exact H | constructor] | tauto].
  - apply Forall_cons in Hpos as [Ht Hrest]. simpl in Ht.
    apply Z.eqb_neq in Ht. rewrite Ht.
    destruct (Dict.count t actual =? e) eqn:E; simpl.
    + apply Z.eqb_eq in E.
      destruct (IH (mkDiagnostics (missing_titles d) (unexpected_counts d)
                      (found_titles d ++ [t])) Hrest) as [Hm Hu].
      split; [exact Hm |]. rewrite Hu. simpl. rewrite Forall_cons. simpl. tauto.
    + apply Z.eqb_neq in E.
      destruct (IH (mkDiagnostics (missing_titles d)
                      (Dict.set t (e, Dict.count t actual) (unexpected_counts d))
                      (found_titles d)) Hrest) as [Hm Hu].
      split; [exact Hm |]. rewrite Hu. simpl. rewrite Forall_cons. simpl.
      split.
      * intros [Hnil _]. exfalso. exact (dict_set_not_nil _ _ _ Hnil).
      * intros [_ [Heq _]]. contradiction.
Qed.

(** What a call of [check_graph_titles] that returns has found: every
    label at least once, with the count of the pattern loop; no label
    is reported missing; and the result is valid exactly when every
    count is the expected one. *)
Lemma check_graph_titles_returns text titles r :
  check_graph_titles text titles = Ok r ->
  expected_counts r = titles /\
  missing_titles (diagnostics r) = [] /\
  Forall (fun item : string * Z =>
            try_patterns (patterns (PyStr.upper item.1)) (PyStr.upper text)
            = Ok (Some (Dict.count item.1 (actual_counts r))) /\
            1 <= Dict.count item.1 (actual_counts r)) titles /\
  (is_valid r = true <->
   Forall (fun item : string * Z => Dict.count item.1 (actual_counts r) = item.2) titles).
Proof.
  unfold check_graph_titles. intros H. inv_bind H. rename a into actual.
  injection H as <-. simpl.
  apply count_titles_recorded in Ha; [| intros t c; discriminate].
  destruct Ha as [Hrec Hkeys].
  assert (Hall : Forall (fun item : string * Z =>
            try_patterns (patterns (PyStr.upper item.1)) (PyStr.upper text)
            = Ok (Some (Dict.count item.1 actual)) /\
            1 <= Dict.count item.1 actual) titles).
  { apply Forall_forall. intros [t e] Hin. simpl.
    destruct (Hkeys t) as [c Hc].
    { left. apply list_elem_of_fmap. exists (t, e). split; [reflexivity | exact Hin]. }
    unfold Dict.count. rewrite Hc. simpl.
    pose proof (Hrec _ _ Hc) as Htry. split; [exact Htry |].
    destruct (try_patterns_found _ _ _ Htry) as (c' & [= <-] & Hpos). exact Hpos. }
  destruct (analyze_fold actual titles (mkDiagnostics [] [] [])) as [Hm Hu].
  { eapply Forall_impl; [exact Hall |]. intros item [_ Hpos]. lia. }
  simpl in Hm, Hu.
  split; [reflexivity |]. split; [exact Hm |]. split; [exact Hall |].
  rewrite Hm. simpl. rewrite Nat.eqb_eq, length_zero_iff_nil, Hu. tauto.
Qed.

(** A label that neither of the first two patterns finds stops the
    whole check: no result is returned. *)
Lemma check_graph_titles_absent_label text titles t r :
  t ∈ titles.*1 ->
  Re.findall (Re.WordBoundary (PyStr.upper t)) (PyStr.upper text) = Ok [] ->
  Re.findall (Re.FollowedBy (PyStr.upper t)) (PyStr.upper text) = Ok [] ->
  check_graph_titles text titles <> Ok r.
Proof.
  intros Hin H1 H2 H.
  destruct (check_graph_titles_returns _ _ _ H) as (_ & _ & Hall & _).
  apply list_elem_of_fmap in Hin as ([t' e] & -> & Hin).
  rewrite Forall_forall in Hall. destruct (Hall _ Hin) as [Htry _].
  rewrite (try_patterns_third _ _ H1 H2) in Htry. discriminate.
Qed.

(** The two templates of the script never match one text: they expect
    different counts of the label II. *)
Lemma ECG_FORMATS_exclusive text r1 r2 :
  check_graph_titles text FORMAT1_TITLES = Ok r1 ->
  check_graph_titles text FORMAT2_TITLES = Ok r2 ->
  is_valid r1 = true -> is_valid r2 = true -> False.
Proof.
  intros H1 H2 V1 V2.
  destruct (check_graph_titles_returns _ _ _ H1) as (_ & _ & Hall1 & Hv1).
  destruct (check_graph_titles_returns _ _ _ H2) as (_ & _ & Hall2 & Hv2).
  apply Hv1 in V1. apply Hv2 in V2.
  rewrite Forall_forall in Hall1, Hall2, V1, V2.
  assert (In1 : ("II", 1) ∈ FORMAT1_TITLES) by (apply list_elem_of_In; simpl; tauto).
  assert (In2 : ("II", 2) ∈ FORMAT2_TITLES) by (apply list_elem_of_In; simpl; tauto).
  destruct (Hall1 _ In1) as [T1 _]. destruct (Hall2 _ In2) as [T2 _].
  specialize (V1 _ In1). specialize (V2 _ In2). cbn [fst snd] in *.
  rewrite T1 in T2. injection T2 as T2. lia.
Qed.

(** C1. If both templates of a two-template table report [is_valid]
    for a text, [check_all_formats] returns no match (and no results);
    and whenever it returns a match, both templates were checked and
    exactly one of them is valid, the one that is returned. *)
Theorem check_all_formats_ambiguity n1 t1 n2 t2 text :
  (forall r1 r2,
      check_graph_titles text t1 = Ok r1 ->
      check_graph_titles text t2 = Ok r2 ->
      is_valid r1 = true -> is_valid r2 = true ->
      check_all_formats_in [(n1, t1); (n2, t2)] text = Ok (None, None)) /\
  (forall f res,
      check_all_formats_in [(n1, t1); (n2, t2)] text = Ok (Some f, res) ->
      exists r1 r2,
        check_graph_titles text t1 = Ok r1 /\
        check_graph_titles text t2 = Ok r2 /\
        ((is_valid r1 = true /\ is_valid r2 = false /\ f = n1 /\ res = Some r1) \/
         (is_valid r1 = false /\ is_valid r2 = true /\ f = n2 /\ res = Some r2))).
Proof.
  unfold check_all_formats_in. split.
  - intros r1 r2 H1 H2 V1 V2. cbn [check_all_formats_loop].
    rewrite H1. cbn [mbind result_bind]. rewrite V1, H2.
    cbn [mbind result_bind]. rewrite V2. reflexivity.
  - intros f res H. cbn [check_all_formats_loop] in H.
    inv_bind H. rename a into r1, Ha into H1.
    destruct (is_valid r1) eqn:V1.
    + inv_bind H. rename a into r2, Ha into H2.
      destruct (is_valid r2) eqn:V2; [discriminate |].
      injection H as <- <-. exists r1, r2. tauto.
    + inv_bind H. rename a into r2, Ha into H2.
      destruct (is_valid r2) eqn:V2; [| discriminate].
      injection H as <- <-. exists r1, r2. tauto.
Qed.

Lemma check_all_formats_ambiguity_witness :
  check_graph_titles Samples.format1_text FORMAT1_TITLES
    = Ok Samples.format1_validation /\
  is_valid Samples.format1_validation = true /\
  check_all_formats_in Samples.twin_formats Samples.format1_text = Ok (None, None).
Proof.
  assert (H : check_graph_titles Samples.format1_text FORMAT1_TITLES
              = Ok Samples.format1_validation) by (vm_compute; reflexivity).
  split; [exact H |]. split; [reflexivity |].
  exact (proj1 (check_all_formats_ambiguity "format1" FORMAT1_TITLES
                  "format1b" FORMAT1_TITLES Samples.format1_text)
           _ _ H H eq_refl eq_refl).
Defined.

(** C9. Whether returned by [check_all_formats] or passed on by
    [validate_ecg_format], the matching format is [None] exactly when
    the results are [None]. *)
Theorem matching_format_and_results_together fs pdf_path verbose text mf res :
  check_all_formats text = Ok (mf, res) \/
  validate_ecg_format fs pdf_path verbose = Ok (mf, res) ->
  (mf = None <-> res = None).
Proof.
  intros [H | H].
  - apply (check_all_formats_loop_shape ECG_FORMATS text None None (mf, res));
      [tauto | exact H].
  - apply validate_ecg_format_result in H.
    apply (check_all_formats_loop_shape ECG_FORMATS
             (extract_text_from_first_page fs pdf_path) None None (mf, res));
      [tauto | exact H].
Qed.

Lemma matching_format_and_results_together_witness :
  check_all_formats Samples.other_text = Ok (None, None) /\
  (@None string = None <-> @None Validation = None) /\
  validate_ecg_format Samples.sorted_fs "out/Correct/format1/a.pdf" true
    = Ok (Some "format1", Some Samples.format1_validation) /\
  (Some "format1" = None <-> Some Samples.format1_validation = None).
Proof.
  assert (H1 : check_all_formats Samples.other_text = Ok (None, None))
    by (vm_compute; reflexivity).
  assert (H2 : validate_ecg_format Samples.sorted_fs "out/Correct/format1/a.pdf" true
               = Ok (Some "format1", Some Samples.format1_validation))
    by (vm_compute; reflexivity).
  split; [exact H1 |]. split.
  - exact (matching_format_and_results_together Samples.sorted_fs EmptyString false
             Samples.other_text _ _ (or_introl H1)).
  - split; [exact H2 |].
    exact (matching_format_and_results_together Samples.sorted_fs
             "out/Correct/format1/a.pdf" true EmptyString _ _ (or_intror H2)).
Defined.

(** C2 (fails on the code). A text without the label aVF, and the
    empty text of a scanned report: [check_graph_titles] returns no
    result at all, so the label is not listed under [missing_titles];
    the third pattern raises [re.error] when it is reached. *)
Theorem check_graph_titles_missing_label_raises :
  check_graph_titles Samples.missing_avf_text FORMAT1_TITLES = Raise ReError /\
  check_graph_titles "" FORMAT1_TITLES = Raise ReError.
Proof. split; vm_compute; reflexivity. Qed.

(** C5 (fails on the code). For the label aVF, absent from the text,
    the first two patterns have no match and the third one raises:
    no count of 0 is recorded. *)
Theorem try_patterns_no_match_raises :
  Re.findall (Re.WordBoundary "AVF") (PyStr.upper Samples.missing_avf_text) = Ok [] /\
  Re.findall (Re.FollowedBy "AVF") (PyStr.upper Samples.missing_avf_text) = Ok [] /\
  Re.findall (Re.PrecededFollowedBy "AVF") (PyStr.upper Samples.missing_avf_text)
    = Raise ReError /\
  try_patterns (patterns (PyStr.upper "aVF")) (PyStr.upper Samples.missing_avf_text)
    = Raise ReError /\
  count_titles [("aVF", 1)] (PyStr.upper Samples.missing_avf_text) [] = Raise ReError.
Proof. repeat split; vm_compute; reflexivity. Qed.

End Classifier.

(** ** Strings *)

Section Strings.
Import PyStr.

Lemma str_app_cons (c : ascii) (a b : string) :
  String c a +:+ b = String c (a +:+ b).
Proof. reflexivity. Qed.

Lemma str_app_nil_l (s : string) : EmptyString +:+ s = s.
Proof. reflexivity. Qed.

Lemma str_app_nil_r (s : string) : s +:+ EmptyString = s.
Proof.
  induction s as [|c s IH]; [reflexivity |].
  rewrite str_app_cons, IH. reflexivity.
Qed.

Lemma str_app_assoc (a b c : string) : (a +:+ b) +:+ c = a +:+ (b +:+ c).
Proof.
  induction a as [|x a IH]; [reflexivity |].
  rewrite !str_app_cons, IH. reflexivity.
Qed.

Lemma str_length_app (a b : string) :
  String.length (a +:+ b) = (String.length a + String.length b)%nat.
Proof.
  induction a as [|x a IH]; [reflexivity |].
  rewrite str_app_cons. simpl. rewrite IH. reflexivity.
Qed.

Lemma startswith_app (p b : string) : startswith p (p +:+ b) = true.
Proof.
  induction p as [|x p IH]; [reflexivity |].
  rewrite str_app_cons. simpl. rewrite Ascii.eqb_refl. exact IH.
Qed.

Lemma startswith_inv (p s : string) :
  startswith p s = true -> exists b, s = p +:+ b.
Proof.
  revert s. induction p as [|x p IH]; intros s H.
  - exists s. reflexivity.
  - destruct s as [|y s]; simpl in H; [discriminate |].
    apply andb_true_iff in H as [Hxy Hps].
    apply Ascii.eqb_eq in Hxy. subst y.
    destruct (IH _ Hps) as [b ->]. exists b. reflexivity.
Qed.

Lemma contains_here (p s : string) : startswith p s = true -> contains p s = true.
Proof. intros H. destruct s; simpl; rewrite H; reflexivity. Qed.

Lemma contains_later (p : string) (c : ascii) (s : string) :
  contains p s = true -> contains p (String c s) = true.
Proof. intros H. simpl. rewrite H. apply orb_true_r. Qed.

(** [p in s] is true exactly when the literal occurs in the text. *)
Lemma contains_occurs (p s : string) :
  contains p s = true <-> Spec.occurs_in p s.
Proof.
  split.
  - induction s as [|c s IH]; simpl; intros H.
    + rewrite orb_false_r in H. destruct (startswith_inv _ _ H) as [b Hb].
      exists EmptyString, b. exact Hb.
    + apply orb_true_iff in H as [H | H].
      * destruct (startswith_inv _ _ H) as [b Hb].
        exists EmptyString, b. exact Hb.
      * destruct (IH H) as (a & b & ->). exists (String c a), b. reflexivity.
  - intros (a & b & ->). induction a as [|c a IH].
    + rewrite str_app_nil_l. apply contains_here, startswith_app.
    + rewrite str_app_cons. apply contains_later, IH.
Qed.

End Strings.

(** ** The censor: gender and regions *)

Section Censor.
Import PyStr PdfCensor.

(** C10. A rectangle text in which both gender literals occur gives
    "Masculino"; "Femenino" is given only for a text in which it
    occurs and "Masculino" does not. *)
Theorem extract_gender_prefers_masculino (text : string) :
  (Spec.occurs_in "Masculino" text -> Spec.occurs_in "Femenino" text ->
   extract_gender text = Some "Masculino") /\
  (extract_gender text = Some "Femenino" ->
   ~ Spec.occurs_in "Masculino" text /\ Spec.occurs_in "Femenino" text).
Proof.
  unfold extract_gender. split.
  - intros HM _. apply contains_occurs in HM. rewrite HM. reflexivity.
  - destruct (contains "Masculino" text) eqn:EM; [discriminate |].
    destruct (contains "Femenino" text) eqn:EF; [| discriminate].
    intros _. split.
    + intros HM. apply contains_occurs in HM. congruence.
    + apply contains_occurs. exact EF.
Qed.

Lemma extract_gender_prefers_masculino_witness :
  Spec.occurs_in "Masculino" "Femenino / Masculino (45 años)" /\
  Spec.occurs_in "Femenino" "Femenino / Masculino (45 años)" /\
  extract_gender "Femenino / Masculino (45 años)" = Some "Masculino".
Proof.
  assert (HM : Spec.occurs_in "Masculino" "Femenino / Masculino (45 años)")
    by (exists "Femenino / ", " (45 años)"; reflexivity).
  assert (HF : Spec.occurs_in "Femenino" "Femenino / Masculino (45 años)")
    by (exists EmptyString, " / Masculino (45 años)"; reflexivity).
  split; [exact HM |]. split; [exact HF |].
  exact (proj1 (extract_gender_prefers_masculino _) HM HF).
Defined.

Lemma is_set_extract_gender (text : string) :
  is_set (extract_gender text) = contains "Masculino" text || contains "Femenino" text.
Proof.
  unfold extract_gender.
  destruct (contains "Masculino" text); [reflexivity |].
  destruct (contains "Femenino" text); reflexivity.
Qed.

Lemma is_set_extract_age (text : string) :
  is_set (extract_age text) = bool_decide (is_Some (Re.search_age text)).
Proof.
  unfold extract_age. destruct (Re.search_age text) as [digits|].
  - rewrite bool_decide_eq_true_2 by eauto. reflexivity.
  - rewrite bool_decide_eq_false_2; [reflexivity |]. intros [x Hx]. discriminate.
Qed.

Lemma yields_info_is_set (page : Fitz.Page) (region : Fitz.Rect) :
  Spec.yields_info page region =
  is_set (extract_gender (Fitz.get_text_clip page region)) ||
  is_set (extract_age (Fitz.get_text_clip page region)).
Proof.
  unfold Spec.yields_info. rewrite is_set_extract_gender, is_set_extract_age.
  reflexivity.
Qed.

(** The first pass reads, for every tuple of four numbers, the text of
    the mirrored region and nothing else. *)
Lemma first_pass_spec (page : Fitz.Page) (W : Q) (rects : list (list Q)) :
  forall i acc,
    first_pass page W i rects acc = acc ++ Spec.infos_from page W i rects.
Proof.
  induction rects as [|r rest IH]; intros i acc.
  - simpl. rewrite app_nil_r. reflexivity.
  - destruct r as [|x1 [|y1 [|x2 [|y2 [|z r]]]]];
      try (simpl; apply IH).
    cbn [first_pass Spec.infos_from Spec.info_of Spec.mirrored mbind option_bind].
    rewrite yields_info_is_set.
    destruct (is_set _ || is_set _).
    + rewrite IH, <- app_assoc. reflexivity.
    + apply IH.
Qed.

Lemma second_pass_spec (W : Q) (rects : list (list Q)) :
  forall annots,
    second_pass W rects annots = annots ++ omap (Spec.mirrored W) rects.
Proof.
  induction rects as [|r rest IH]; intros annots.
  - simpl. rewrite app_nil_r. reflexivity.
  - destruct r as [|x1 [|y1 [|x2 [|y2 [|z r]]]]];
      try (simpl; apply IH).
    simpl. rewrite IH, <- app_assoc. reflexivity.
Qed.

Lemma infos_from_nil (page : Fitz.Page) (W : Q) (rects : list (list Q)) :
  forall i,
    Spec.infos_from page W i rects = [] <->
    forallb (fun region => negb (Spec.yields_info page region))
            (omap (Spec.mirrored W) rects) = true.
Proof.
  induction rects as [|r rest IH]; intros i.
  - simpl. tauto.
  - cbn [Spec.infos_from omap list_omap]. unfold Spec.info_of.
    destruct (Spec.mirrored W r) as [region|]; cbn [mbind option_bind].
    + cbn [forallb]. destruct (Spec.yields_info page region); cbn [negb andb].
      * split; discriminate.
      * apply IH.
    + apply IH.
Qed.

(** C4. On a page of width [W], the first pass reads and the second
    pass redacts the same regions: for a tuple (x1, y1, x2, y2) the
    rectangle (x1, W - y2, x2, W - y1), whose bounds keep their order,
    and nothing for a tuple that has not four numbers.  The saved
    page carries exactly these redactions. *)
Theorem censor_regions_mirrored (page : Fitz.Page) (W : Q) (rects : list (list Q)) :
  first_pass page W 0 rects [] = Spec.infos_from page W 0 rects /\
  second_pass W rects [] = omap (Spec.mirrored W) rects /\
  (forall x1 y1 x2 y2,
      Spec.mirrored W [x1; y1; x2; y2]
      = Some (Fitz.mkRect x1 (W - y2) x2 (W - y1)) /\
      ((y1 <= y2)%Q -> (W - y2 <= W - y1)%Q)) /\
  (forall r, length r <> 4%nat -> Spec.mirrored W r = None) /\
  (forall others coordinates_dict include_info saved,
      censor_doc (page :: others) coordinates_dict include_info = Some saved ->
      exists page' rest,
        saved = page' :: rest /\
        Fitz.redactions page' =
        Fitz.redactions page ++
        omap (Spec.mirrored (Fitz.width page)) (all_rectangles_of coordinates_dict)).
Proof.
  split; [apply (first_pass_spec page W rects 0 []) |].
  split; [apply (second_pass_spec W rects []) |].
  split; [| split].
  - intros x1 y1 x2 y2. split; [reflexivity |].
    intros Hle. unfold Qminus. apply Qplus_le_r, Qopp_le_compat. exact Hle.
  - intros r Hlen.
    destruct r as [|x1 [|y1 [|x2 [|y2 [|z r]]]]]; try reflexivity.
    exfalso. apply Hlen. reflexivity.
  - intros others coordinates_dict include_info saved H.
    unfold censor_doc in H.
    destruct (negb (truthy (strip (Fitz.get_text page)))); [discriminate |].
    destruct (first_pass page (Fitz.width page) 0
                (all_rectangles_of coordinates_dict) []); [discriminate |].
    injection H as <-. eexists _, _. split; [reflexivity |].
    simpl. rewrite second_pass_spec. reflexivity.
Qed.

Lemma censor_regions_mirrored_witness :
  (7.81606 <= 107.861)%Q /\
  (595 - 107.861 <= 595 - 7.81606)%Q /\
  censor_doc [Samples.page_of "Masculino (45 años)"] coordinates true
    = Some Samples.censored_doc /\
  exists page' rest,
    Samples.censored_doc = page' :: rest /\
    Fitz.redactions page' =
    [] ++ omap (Spec.mirrored 595) (all_rectangles_of coordinates).
Proof.
  assert (Hle : (7.81606 <= 107.861)%Q) by (unfold Qle; simpl; lia).
  assert (Hdoc : censor_doc [Samples.page_of "Masculino (45 años)"] coordinates true
                 = Some Samples.censored_doc) by (vm_compute; reflexivity).
  split; [exact Hle |]. split; [| split; [exact Hdoc |]].
  - exact (proj2 (proj1 (proj2 (proj2
             (censor_regions_mirrored (Samples.page_of EmptyString) 595 [])))
             39.2821%Q 7.81606%Q 95.3558%Q 107.861%Q) Hle).
  - exact (proj2 (proj2 (proj2 (proj2
             (censor_regions_mirrored (Samples.page_of "Masculino (45 años)") 595 []))))
             [] coordinates true _ Hdoc).
Defined.

(** *** When the censor gives up *)

Lemma censor_doc_none (doc : Fitz.Doc) coordinates_dict include_info :
  censor_doc doc coordinates_dict include_info = None <->
  Spec.gives_up doc (all_rectangles_of coordinates_dict) = true.
Proof.
  destruct doc as [|page others]; [simpl; tauto |].
  unfold censor_doc, Spec.gives_up, truthy. rewrite negb_involutive.
  destruct (String.eqb (strip (Fitz.get_text page)) EmptyString); [simpl; tauto |].
  rewrite first_pass_spec, app_nil_l, orb_false_l.
  rewrite <- (infos_from_nil page (Fitz.width page) _ 0%nat).
  destruct (Spec.infos_from page (Fitz.width page) 0
              (all_rectangles_of coordinates_dict)); split; (discriminate || reflexivity).
Qed.

Lemma censor_pdf_files_before_open fs (output_dir : option string) :
  FileSys.files (if is_set output_dir
                 then FileSys.makedirs fs (default EmptyString output_dir) else fs)
  = FileSys.files fs.
Proof. destruct (is_set output_dir); reflexivity. Qed.

Lemma censor_pdf_open fs pdf_path (output_dir : option string) :
  FileSys.fitz_open
    (if is_set output_dir
     then FileSys.makedirs fs (default EmptyString output_dir) else fs) pdf_path
  = FileSys.fitz_open fs pdf_path.
Proof. unfold FileSys.fitz_open. rewrite censor_pdf_files_before_open. reflexivity. Qed.

(** C3. For a path that opens as a PDF document, [censor_pdf] returns
    [None] exactly when the document has no page, or the stripped text
    of its first page is empty, or no mirrored region yields a gender
    or an age; it writes no file then.  Otherwise it saves one file,
    under the output path, and returns that path. *)
Theorem censor_pdf_gives_up_exactly fs pdf_path coordinates_dict output_dir
    include_info doc :
  FileSys.fitz_open fs pdf_path = Ok doc ->
  let out := censor_pdf fs pdf_path coordinates_dict output_dir include_info in
  let rects := all_rectangles_of coordinates_dict in
  (out.2 = Ok None <-> Spec.gives_up doc rects = true) /\
  (Spec.gives_up doc rects = true -> FileSys.files out.1 = FileSys.files fs) /\
  (Spec.gives_up doc rects = false ->
   out.2 = Ok (Some (output_path_of pdf_path output_dir)) /\
   exists saved,
     FileSys.files out.1 =
     <[output_path_of pdf_path output_dir := FileSys.PdfFile saved]> (FileSys.files fs)).
Proof.
  intros Hopen out rects. subst out rects. unfold censor_pdf.
  rewrite censor_pdf_open, Hopen.
  pose proof (censor_doc_none doc coordinates_dict include_info) as Hnone.
  destruct (censor_doc doc coordinates_dict include_info) as [redacted|]; simpl.
  - assert (Hg : Spec.gives_up doc (all_rectangles_of coordinates_dict) = false).
    { destruct (Spec.gives_up doc (all_rectangles_of coordinates_dict));
        [| reflexivity].
      destruct Hnone as [_ Hnone]. discriminate (Hnone eq_refl). }
    rewrite Hg. split; [split; discriminate |]. split; [discriminate |].
    intros _. split; [reflexivity |]. exists redacted.
    rewrite censor_pdf_files_before_open. reflexivity.
  - assert (Hg : Spec.gives_up doc (all_rectangles_of coordinates_dict) = true)
      by (apply Hnone; reflexivity).
    rewrite Hg. split; [tauto |]. split; [| discriminate].
    intros _. apply censor_pdf_files_before_open.
Qed.

Lemma censor_pdf_gives_up_exactly_witness :
  FileSys.fitz_open Samples.inbox_fs "in/a.pdf" = Ok [Samples.page_of EmptyString] /\
  Spec.gives_up [Samples.page_of EmptyString] (all_rectangles_of coordinates) = true /\
  (censor_pdf Samples.inbox_fs "in/a.pdf" coordinates (Some "out") true).2 = Ok None /\
  FileSys.fitz_open Samples.inbox_fs "in/b.pdf"
    = Ok [Samples.page_of "Masculino (45 años)"] /\
  Spec.gives_up [Samples.page_of "Masculino (45 años)"]
    (all_rectangles_of coordinates) = false /\
  (censor_pdf Samples.inbox_fs "in/b.pdf" coordinates (Some "out") true).2
    = Ok (Some (output_path_of "in/b.pdf" (Some "out"))).
Proof.
  assert (Ha : FileSys.fitz_open Samples.inbox_fs "in/a.pdf"
               = Ok [Samples.page_of EmptyString]) by (vm_compute; reflexivity).
  assert (Hb : FileSys.fitz_open Samples.inbox_fs "in/b.pdf"
               = Ok [Samples.page_of "Masculino (45 años)"])
    by (vm_compute; reflexivity).
  assert (Ga : Spec.gives_up [Samples.page_of EmptyString]
                 (all_rectangles_of coordinates) = true) by (vm_compute; reflexivity).
  assert (Gb : Spec.gives_up [Samples.page_of "Masculino (45 años)"]
                 (all_rectangles_of coordinates) = false) by (vm_compute; reflexivity).
  split; [exact Ha |]. split; [exact Ga |]. split.
  - exact (proj2 (proj1 (censor_pdf_gives_up_exactly Samples.inbox_fs "in/a.pdf"
                           coordinates (Some "out") true _ Ha)) Ga).
  - split; [exact Hb |]. split; [exact Gb |].
    exact (proj1 (proj2 (proj2 (censor_pdf_gives_up_exactly Samples.inbox_fs "in/b.pdf"
                           coordinates (Some "out") true _ Hb)) Gb)).
Defined.

End Censor.

(** ** Paths *)

Section Paths.
Import PyStr PosixPath.

Lemma rfind_lower (c : ascii) (s : string) : -1 <= rfind c s.
Proof.
  induction s as [|a r IH]; simpl; [lia |].
  destruct (0 <=? rfind c r) eqn:E; [lia |].
  destruct (Ascii.eqb a c); lia.
Qed.

Lemma rfind_head (c : ascii) (r : string) : 0 <= rfind c (String c r).
Proof.
  simpl. destruct (0 <=? rfind c r) eqn:E.
  - apply Z.leb_le in E. lia.
  - rewrite Ascii.eqb_refl. lia.
Qed.

Lemma rfind_app_no (c : ascii) (a b : string) :
  rfind c b = -1 -> rfind c (a +:+ b) = rfind c a.
Proof.
  intros Hb. induction a as [|x a IH].
  - rewrite str_app_nil_l. exact Hb.
  - rewrite str_app_cons. simpl. rewrite IH. reflexivity.
Qed.

Lemma rfind_app_yes (c : ascii) (a b : string) :
  0 <= rfind c b ->
  rfind c (a +:+ b) = Z.of_nat (String.length a) + rfind c b.
Proof.
  intros Hb. induction a as [|x a IH].
  - rewrite str_app_nil_l. simpl. lia.
  - rewrite str_app_cons. simpl rfind. rewrite IH.
    destruct (0 <=? Z.of_nat (String.length a) + rfind c b) eqn:E.
    + simpl String.length. lia.
    + apply Z.leb_gt in E. lia.
Qed.

Lemma rfind_app_none (c : ascii) (a b : string) :
  rfind c (a +:+ b) = -1 -> rfind c a = -1 /\ rfind c b = -1.
Proof.
  intros H. pose proof (rfind_lower c b) as Hb.
  destruct (Z.eq_dec (rfind c b) (-1)) as [E | E].
  - rewrite (rfind_app_no _ _ _ E) in H. tauto.
  - rewrite rfind_app_yes in H by lia. lia.
Qed.

Lemma drop_length_app (a b : string) : drop (String.length a) (a +:+ b) = b.
Proof.
  induction a as [|x a IH]; [reflexivity |].
  rewrite str_app_cons. simpl. exact IH.
Qed.

Lemma take_drop (n : nat) (s : string) : take n s +:+ drop n s = s.
Proof.
  revert s. induction n as [|n IH]; intros s; [reflexivity |].
  destruct s as [|c s]; [reflexivity |].
  simpl. rewrite str_app_cons, IH. reflexivity.
Qed.

(** What follows the last separator has no separator. *)
Lemma rfind_after_last (c : ascii) (s : string) :
  rfind c (drop (Z.to_nat (rfind c s + 1)) s) = -1.
Proof.
  induction s as [|a r IH]; [reflexivity |].
  pose proof (rfind_lower c r) as Hr.
  simpl rfind at 2.
  destruct (0 <=? rfind c r) eqn:E.
  - apply Z.leb_le in E.
    replace (Z.to_nat (rfind c r + 1 + 1)) with (S (Z.to_nat (rfind c r + 1))) by lia.
    simpl. exact IH.
  - apply Z.leb_gt in E. assert (Hk : rfind c r = -1) by lia.
    destruct (Ascii.eqb a c) eqn:Eac.
    + simpl. exact Hk.
    + simpl. rewrite Hk, Eac. reflexivity.
Qed.

Lemma basename_no_sep (p : string) : rfind sep (basename p) = -1.
Proof. apply rfind_after_last. Qed.

Lemma splitext_loop_parts n p filenameIndex dotIndex root ext :
  splitext_loop n p filenameIndex dotIndex = Some (root, ext) ->
  root = slice_to dotIndex p /\ ext = slice_from dotIndex p.
Proof.
  revert filenameIndex. induction n as [|n IH]; intros filenameIndex H; simpl in H.
  - discriminate.
  - destruct (negb _).
    + injection H as <- <-. tauto.
    + exact (IH _ H).
Qed.

(** [splitext] cuts its argument in two. *)
Lemma splitext_concat (p : string) : (splitext p).1 +:+ (splitext p).2 = p.
Proof.
  unfold splitext.
  destruct (rfind sep p <? rfind extsep p); [| apply str_app_nil_r].
  destruct (splitext_loop _ p _ _) as [[root ext]|] eqn:E; [| apply str_app_nil_r].
  apply splitext_loop_parts in E as [-> ->]. apply take_drop.
Qed.

Lemma endswith_sep_inv (d : string) :
  endswith "/" d = true -> exists d', d = d' +:+ "/".
Proof.
  unfold endswith. intros H. apply andb_true_iff in H as [_ H].
  apply String.eqb_eq in H.
  exists (take (String.length d - String.length "/") d).
  rewrite <- (take_drop (String.length d - String.length "/") d) at 1.
  rewrite H. reflexivity.
Qed.

(** The last component of [join d name] is [name] when [name] has no
    separator. *)
Lemma basename_join (d name : string) :
  rfind sep name = -1 -> basename (join d name) = name.
Proof.
  intros Hname. unfold join.
  assert (Hstart : startswith "/" name = false).
  { destruct name as [|c r]; [reflexivity |]. cbn [startswith].
    destruct (Ascii.eqb "/" c) eqn:E; [| reflexivity].
    apply Ascii.eqb_eq in E. subst c. exfalso.
    pose proof (rfind_head sep r) as Hh. unfold sep in *. lia. }
  rewrite Hstart. unfold truthy. rewrite negb_involutive.
  assert (Hslash : rfind sep (String sep name) = 0).
  { simpl. rewrite Hname. reflexivity. }
  destruct (String.eqb d EmptyString) eqn:Ed.
  - apply String.eqb_eq in Ed. subst d. simpl orb. cbv iota.
    rewrite str_app_nil_l. unfold basename, slice_from. rewrite Hname. reflexivity.
  - simpl orb. destruct (endswith "/" d) eqn:Ee.
    + destruct (endswith_sep_inv _ Ee) as [d' ->].
      unfold basename, slice_from.
      rewrite (rfind_app_no _ _ _ Hname).
      rewrite (rfind_app_yes sep d' "/") by (simpl; lia).
      replace (Z.to_nat (Z.of_nat (String.length d') + rfind sep "/" + 1))
        with (String.length (d' +:+ "/"))
        by (rewrite str_length_app; simpl; lia).
      apply drop_length_app.
    + unfold basename, slice_from.
      change ("/" +:+ name) with (String sep name).
      rewrite (rfind_app_yes sep d (String sep name)) by lia.
      rewrite Hslash.
      change (String sep name) with ("/" +:+ name).
      rewrite <- str_app_assoc.
      replace (Z.to_nat (Z.of_nat (String.length d) + 0 + 1))
        with (String.length (d +:+ "/"))
        by (rewrite str_length_app; simpl; lia).
      apply drop_length_app.
Qed.

(** The file name the censor writes: stem, "_censored", extension. *)
Lemma censored_name_no_sep (pdf_path : string) :
  rfind sep ((splitext (basename pdf_path)).1 +:+ "_censored" +:+
             (splitext (basename pdf_path)).2) = -1.
Proof.
  pose proof (basename_no_sep pdf_path) as Hbase.
  rewrite <- (splitext_concat (basename pdf_path)) in Hbase.
  apply rfind_app_none in Hbase as [Hroot Hext].
  rewrite rfind_app_no; [exact Hroot |].
  rewrite rfind_app_no; [reflexivity | exact Hext].
Qed.

Lemma output_path_of_join (pdf_path : string) (output_dir : option string) :
  exists d,
    PdfCensor.output_path_of pdf_path output_dir =
    join d ((splitext (basename pdf_path)).1 +:+ "_censored" +:+
            (splitext (basename pdf_path)).2).
Proof.
  unfold PdfCensor.output_path_of.
  destruct (splitext (basename pdf_path)) as [root ext]. simpl.
  destruct (PdfCensor.is_set output_dir); eexists; reflexivity.
Qed.

Lemma output_path_of_basename (pdf_path : string) (output_dir : option string) :
  basename (PdfCensor.output_path_of pdf_path output_dir) =
  (splitext (basename pdf_path)).1 +:+ "_censored" +:+ (splitext (basename pdf_path)).2.
Proof.
  destruct (output_path_of_join pdf_path output_dir) as [d ->].
  apply basename_join, censored_name_no_sep.
Qed.

(** C8. The output path of [censor_pdf] is never the input path: its
    last component is the input's with "_censored" put before the
    extension.  The call changes no file but the one at the output
    path; the input file is left as it was. *)
Theorem censor_pdf_leaves_input fs pdf_path coordinates_dict output_dir include_info :
  let output_path := PdfCensor.output_path_of pdf_path output_dir in
  let out := PdfCensor.censor_pdf fs pdf_path coordinates_dict output_dir include_info in
  output_path <> pdf_path /\
  basename output_path =
    (splitext (basename pdf_path)).1 +:+ "_censored" +:+
    (splitext (basename pdf_path)).2 /\
  (forall p, p <> output_path ->
             FileSys.files out.1 !! p = FileSys.files fs !! p) /\
  FileSys.files out.1 !! pdf_path = FileSys.files fs !! pdf_path.
Proof.
  intros output_path out.
  assert (Hne : output_path <> pdf_path).
  { intros Heq. pose proof (output_path_of_basename pdf_path output_dir) as Hb.
    fold output_path in Hb. rewrite Heq in Hb.
    apply (f_equal String.length) in Hb.
    rewrite <- (splitext_concat (basename pdf_path)) in Hb at 1.
    rewrite !str_length_app in Hb. simpl in Hb. lia. }
  assert (Hframe : forall p, p <> output_path ->
                     FileSys.files out.1 !! p = FileSys.files fs !! p).
  { intros p Hp. subst out. unfold PdfCensor.censor_pdf.
    destruct (FileSys.fitz_open _ pdf_path) as [doc|e]; simpl.
    - destruct (PdfCensor.censor_doc doc coordinates_dict include_info); simpl.
      + rewrite lookup_insert_ne by (intros E; apply Hp; symmetry; exact E).
        rewrite censor_pdf_files_before_open. reflexivity.
      + rewrite censor_pdf_files_before_open. reflexivity.
    - rewrite censor_pdf_files_before_open. reflexivity. }
  split; [exact Hne |]. split; [apply output_path_of_basename |].
  split; [exact Hframe |]. apply Hframe. intros E. apply Hne. symmetry. exact E.
Qed.

End Paths.

(** ** The folder drivers *)

Section Drivers.
Import FileSys.

Lemma makedirs_twice (fs : FS) (d : string) :
  makedirs (makedirs fs d) d = makedirs fs d.
Proof. unfold makedirs. simpl. f_equal. rewrite (assoc_L (∪)), union_idemp_L. reflexivity. Qed.

(** *** [process_pdf_folder] of the censor *)

Section CensorFolder.
Import PdfCensor.
Variable folder_path : string.
Variable coordinates_dict : list (Z * list (list Q)).
Variable output_dir : string.
Variable include_info : bool.

Let step := process_file folder_path coordinates_dict output_dir include_info.

(** A turn of the loop that ends without an exception counts its
    file once, as processed or as failed. *)
Lemma process_file_counts (st st' : FolderState) (file_name : string) :
  step st file_name = Ok st' ->
  Spec.counted st' = (Spec.counted st + if Spec.is_pdf_name file_name then 1 else 0)%nat.
Proof.
  unfold step, process_file, Spec.is_pdf_name, Spec.counted.
  destruct (PyStr.endswith ".pdf" (PyStr.lower file_name));
    [| intros H; injection H as <-; lia].
  unfold try_file.
  destruct (censor_pdf (fs_of st) (PosixPath.join folder_path file_name)
              coordinates_dict (Some output_dir) include_info) as [fs1 [o | e]].
  - destruct (is_set o).
    + intros H. injection H as <-. simpl. rewrite length_app. simpl. lia.
    + destruct (copy2 (makedirs fs1 (failed_dir output_dir))
                  (PosixPath.join folder_path file_name)
                  (PosixPath.join (failed_dir output_dir) file_name))
        as [fs3 | e] eqn:Ecopy.
      * intros H. injection H as <-. simpl. rewrite length_app. simpl. lia.
      * cbn [fs_of]. rewrite makedirs_twice, Ecopy. discriminate.
  - cbn [fs_of failed_files processed_files]. intros H. inv_bind H.
    injection H as <-. simpl. rewrite length_app. simpl. lia.
Qed.

Lemma process_files_counts (file_names : list string) :
  forall st st',
    process_files folder_path coordinates_dict output_dir include_info st file_names
    = Ok st' ->
    Spec.counted st' =
    (Spec.counted st + length (filter (fun n => Spec.is_pdf_name n = true) file_names))%nat.
Proof.
  induction file_names as [|file_name rest IH]; intros st st' H; simpl in H.
  - injection H as <-. simpl. lia.
  - inv_bind H. apply process_file_counts in Ha. apply IH in H.
    rewrite H, Ha. rewrite filter_cons.
    destruct (decide (Spec.is_pdf_name file_name = true)) as [E | E].
    + rewrite E. simpl. lia.
    + apply not_true_is_false in E. rewrite E. lia.
Qed.

End CensorFolder.

(** When [process_pdf_folder] returns, every '.pdf' name of the folder
    is counted once. *)
Lemma process_pdf_folder_counts fs folder_path coordinates_dict output_dir
    include_info st :
  PdfCensor.process_pdf_folder fs folder_path coordinates_dict output_dir include_info
  = Ok st ->
  let out := match output_dir with
             | None => PosixPath.join (PosixPath.dirname folder_path) "Censored PDFs"
             | Some d => d
             end in
  (exists_ (makedirs fs out) folder_path = false /\ Spec.counted st = 0%nat) \/
  (exists file_names,
      listdir (makedirs fs out) folder_path = Ok file_names /\
      Spec.counted st = length (filter (fun n => Spec.is_pdf_name n = true) file_names)).
Proof.
  intros H out. unfold PdfCensor.process_pdf_folder in H. fold out in H.
  destruct (exists_ (makedirs fs out) folder_path).
  - right. simpl in H. inv_bind H. exists a. split; [exact Ha |].
    apply process_files_counts in H. exact H.
  - left. simpl in H. injection H as <-. split; reflexivity.
Qed.

(** C7 (fails on the code). The censor is run on its own folder of
    failed files.  The scanned report a.pdf cannot be copied onto
    itself; the copy in the handler raises again, outside any [try],
    and [process_pdf_folder] ends with that exception.  The report
    b.pdf, next in the listing and fit to be censored, is never
    reached. *)
Theorem process_pdf_folder_aborts :
  listdir (makedirs Samples.failed_fs "out") "out/Failed" = Ok ["a.pdf"; "b.pdf"] /\
  PdfCensor.process_pdf_folder Samples.failed_fs "out/Failed" PdfCensor.coordinates
    (Some "out") true = Raise SameFileError /\
  PdfCensor.processed_files <$>
    (PdfCensor.process_file "out/Failed" PdfCensor.coordinates "out" true
       (PdfCensor.mkFolderState (makedirs Samples.failed_fs "out") [] []) "b.pdf")
  = Ok ["out/b_censored.pdf"].
Proof. repeat split; vm_compute; reflexivity. Qed.

(** *** [main] of the sorter *)

Section SorterFolder.
Import SeparateFormats.
Variable args : Args.
Variable incorrect_path : string.
Variable format_paths : list (string * string).

(** A turn of the loop adds one to the two counters together, or
    two when a copy fails after its counter was raised. *)
Lemma process_file_stats (st : LoopState) (pdf_file : string) :
  let st' := process_file args incorrect_path format_paths st pdf_file in
  total (stats st') = total (stats st) /\
  correct (stats st) + incorrect (stats st) + 1
    <= correct (stats st') + incorrect (stats st')
    <= correct (stats st) + incorrect (stats st) + 2.
Proof.
  unfold process_file, try_file.
  destruct (validate_ecg_format (fs_of st) pdf_file (verbose args))
    as [[matching_format results] | e].
  - destruct (is_match matching_format).
    + destruct (copy2 _ pdf_file _) as [fs' | e]; [simpl; lia |].
      destruct (copy2 _ pdf_file _); simpl; lia.
    + destruct (copy2 _ pdf_file _) as [fs' | e]; [simpl; lia |].
      destruct (copy2 _ pdf_file _); simpl; lia.
  - destruct (copy2 _ pdf_file _); simpl; lia.
Qed.

Lemma process_files_stats (pdf_files : list string) :
  forall st,
    let st' := fold_left (process_file args incorrect_path format_paths) pdf_files st in
    total (stats st') = total (stats st) /\
    correct (stats st) + incorrect (stats st) + Z.of_nat (length pdf_files)
      <= correct (stats st') + incorrect (stats st')
      <= correct (stats st) + incorrect (stats st) + 2 * Z.of_nat (length pdf_files).
Proof.
  induction pdf_files as [|pdf_file rest IH]; intros st; simpl.
  - lia.
  - pose proof (process_file_stats st pdf_file) as H1.
    pose proof (IH (process_file args incorrect_path format_paths st pdf_file)) as H2.
    simpl in H1, H2. lia.
Qed.

End SorterFolder.

(** The counts [main] prints: every file is counted, and at most
    twice. *)
Lemma main_counts_bounds script_dir args fs :
  let s := SeparateFormats.final_stats (SeparateFormats.main script_dir args fs) in
  SeparateFormats.total s
    <= SeparateFormats.correct s + SeparateFormats.incorrect s
    <= 2 * SeparateFormats.total s.
Proof.
  unfold SeparateFormats.main.
  destruct (negb (isdir fs (SeparateFormats.input_folder args))); [simpl; lia |].
  cbv zeta.
  destruct (fold_left _ SeparateFormats.ECG_FORMATS _) as [fs2 format_paths].
  cbn [SeparateFormats.final_stats].
  match goal with
  | |- context [fold_left (SeparateFormats.process_file ?a ?ip ?fp) ?l ?st] =>
      pose proof (process_files_stats a ip fp l st) as H;
      cbv zeta in H;
      set (st' := fold_left (SeparateFormats.process_file a ip fp) l st) in *
  end.
  cbn [SeparateFormats.stats SeparateFormats.total SeparateFormats.correct
       SeparateFormats.incorrect] in H.
  lia.
Qed.

(** C6 (fails on the code). The sorter is run on its own folder
    Correct/format1, holding one format-1 report.  The report is
    counted as correct, its copy onto itself fails, and the handler
    counts it as incorrect too: one file, two counts. *)
Theorem main_counts_one_file_twice :
  let outcome := SeparateFormats.main "scripts" Samples.sorted_args Samples.sorted_fs in
  SeparateFormats.code outcome = 0 /\
  SeparateFormats.final_stats outcome = SeparateFormats.mkStats 1 1 1 /\
  SeparateFormats.correct (SeparateFormats.final_stats outcome)
    + SeparateFormats.incorrect (SeparateFormats.final_stats outcome)
  <> SeparateFormats.total (SeparateFormats.final_stats outcome).
Proof. vm_compute. repeat split; discriminate. Qed.

End Drivers.


(** * Further properties of the two scripts *)

(** ** Text extraction and validation *)

Section ClassifierMore.
Import SeparateFormats.

Lemma line_text_from (spans : list string) :
  forall acc,
    fold_left (fun acc span => acc +:+ span) spans acc
    = acc +:+ Notions.spans_text spans.
Proof.
  induction spans as [|span rest IH]; intros acc; simpl.
  - rewrite str_app_nil_r. reflexivity.
  - rewrite IH, str_app_assoc. reflexivity.
Qed.

Lemma lines_text_from (ls : list (list string)) :
  forall acc,
    fold_left (fun acc line => acc +:+ (line_text line +:+ newline)) ls acc
    = acc +:+ Notions.text_of_lines ls.
Proof.
  induction ls as [|l rest IH]; intros acc; simpl.
  - rewrite str_app_nil_r. reflexivity.
  - rewrite IH. unfold line_text. rewrite line_text_from, str_app_nil_l.
    rewrite !str_app_assoc. reflexivity.
Qed.

Lemma blocks_text_from (bs : list Fitz.Block) :
  forall acc, fold_left block_text bs acc = acc +:+ Notions.text_of_blocks bs.
Proof.
  induction bs as [|b rest IH]; intros acc; simpl.
  - rewrite str_app_nil_r. reflexivity.
  - rewrite IH. unfold block_text. destruct (Fitz.btype b =? 0).
    + rewrite lines_text_from, !str_app_assoc. reflexivity.
    + rewrite str_app_nil_l. reflexivity.
Qed.

Lemma extract_text_no_page (fs : FileSys.FS) (pdf_path : string) :
  (forall page rest, FileSys.fitz_open fs pdf_path <> Ok (page :: rest)) ->
  extract_text_from_first_page fs pdf_path = EmptyString.
Proof.
  intros H. unfold extract_text_from_first_page.
  destruct (negb (FileSys.exists_ fs pdf_path)); [reflexivity |].
  destruct (FileSys.fitz_open fs pdf_path) as [[|page rest] | e]; try reflexivity.
  exfalso. exact (H page rest eq_refl).
Qed.

(** X1. A path that does not open as a PDF document with at least one
    page (no such file, a directory, not a PDF, no pages) gives the
    empty text; no exception leaves [extract_text_from_first_page]. *)
Theorem extract_text_unreadable_is_empty (fs : FileSys.FS) (pdf_path : string) :
  (forall page rest, FileSys.fitz_open fs pdf_path <> Ok (page :: rest)) ->
  extract_text_from_first_page fs pdf_path = EmptyString.
Proof. apply extract_text_no_page. Qed.

Lemma extract_text_unreadable_is_empty_witness :
  (forall page rest,
      FileSys.fitz_open Samples.inbox_fs "in/missing.pdf" <> Ok (page :: rest)) /\
  extract_text_from_first_page Samples.inbox_fs "in/missing.pdf" = EmptyString.
Proof.
  assert (H : forall page rest,
             FileSys.fitz_open Samples.inbox_fs "in/missing.pdf" <> Ok (page :: rest))
    by (intros page rest; vm_compute; discriminate).
  split; [exact H |].
  exact (extract_text_unreadable_is_empty Samples.inbox_fs "in/missing.pdf" H).
Defined.

(** X2. For a PDF with a first page, the extracted text is that of the
    text blocks of the first page alone, in order: every line is its
    spans joined and one newline; blocks of another type (images) and
    the other pages add nothing. *)
Theorem extract_text_is_first_page_blocks (fs : FileSys.FS) (pdf_path : string)
    (page : Fitz.Page) (rest : list Fitz.Page) :
  FileSys.fitz_open fs pdf_path = Ok (page :: rest) ->
  extract_text_from_first_page fs pdf_path = Notions.text_of_blocks (Fitz.blocks page).
Proof.
  intros H. unfold extract_text_from_first_page.
  assert (Hex : FileSys.exists_ fs pdf_path = true).
  { unfold FileSys.exists_, FileSys.isfile. unfold FileSys.fitz_open in H.
    destruct (FileSys.files fs !! pdf_path) as [f|] eqn:E; [| discriminate].
    rewrite bool_decide_eq_true_2 by eauto. reflexivity. }
  rewrite Hex, H. simpl negb. cbv iota.
  rewrite blocks_text_from, str_app_nil_l. reflexivity.
Qed.

Lemma extract_text_is_first_page_blocks_witness :
  FileSys.fitz_open Samples.two_page_fs "in/c.pdf"
    = Ok [Samples.mixed_page; Samples.page_of "II"] /\
  extract_text_from_first_page Samples.two_page_fs "in/c.pdf"
    = Notions.text_of_blocks (Fitz.blocks Samples.mixed_page).
Proof.
  assert (H : FileSys.fitz_open Samples.two_page_fs "in/c.pdf"
              = Ok [Samples.mixed_page; Samples.page_of "II"])
    by (vm_compute; reflexivity).
  split; [exact H |].
  exact (extract_text_is_first_page_blocks _ _ _ _ H).
Defined.

Lemma check_all_formats_both_checked (text : string) out :
  check_all_formats text = Ok out ->
  exists r1 r2,
    check_graph_titles text FORMAT1_TITLES = Ok r1 /\
    check_graph_titles text FORMAT2_TITLES = Ok r2.
Proof.
  unfold check_all_formats, check_all_formats_in, ECG_FORMATS.
  cbn [check_all_formats_loop]. intros H.
  inv_bind H. rename a into r1, Ha into H1.
  destruct (is_valid r1); inv_bind H; exists r1, a; split; assumption.
Qed.

(** X3. Whenever [check_all_formats] returns at all, with a match or
    without, each of the twelve lead labels has at least one match of
    the first or the second pattern in the upper-cased text: a text
    that lacks a label never comes back as a plain "no match". *)
Theorem check_all_formats_returns_only_with_all_labels (text : string) out :
  check_all_formats text = Ok out ->
  Forall (fun item : string * Z =>
            exists c, try_patterns (patterns (PyStr.upper item.1)) (PyStr.upper text)
                      = Ok (Some c) /\ 1 <= c) FORMAT1_TITLES.
Proof.
  intros H. destruct (check_all_formats_both_checked _ _ H) as (r1 & _ & H1 & _).
  destruct (check_graph_titles_returns _ _ _ H1) as (_ & _ & Hall & _).
  eapply Forall_impl; [exact Hall |]. intros item [Ht Hpos]. eauto.
Qed.

Lemma check_all_formats_returns_only_with_all_labels_witness :
  check_all_formats Samples.other_text = Ok (None, None) /\
  Forall (fun item : string * Z =>
            exists c, try_patterns (patterns (PyStr.upper item.1))
                        (PyStr.upper Samples.other_text)
                      = Ok (Some c) /\ 1 <= c) FORMAT1_TITLES.
Proof.
  assert (H : check_all_formats Samples.other_text = Ok (None, None))
    by (vm_compute; reflexivity).
  split; [exact H |].
  exact (check_all_formats_returns_only_with_all_labels _ _ H).
Defined.

(** X4. A file that cannot be read as a PDF with a first page is not
    reported as "no match": its text is empty, the first label has no
    match, and [validate_ecg_format] ends with the error of the third
    pattern, whatever the verbose flag. *)
Theorem validate_ecg_format_unreadable_raises (fs : FileSys.FS) (pdf_path : string)
    (verbose : bool) :
  (forall page rest, FileSys.fitz_open fs pdf_path <> Ok (page :: rest)) ->
  validate_ecg_format fs pdf_path verbose = Raise ReError.
Proof.
  intros H. unfold validate_ecg_format.
  rewrite (extract_text_no_page _ _ H). reflexivity.
Qed.

Lemma validate_ecg_format_unreadable_raises_witness :
  (forall page rest,
      FileSys.fitz_open Samples.inbox_fs "in" <> Ok (page :: rest)) /\
  validate_ecg_format Samples.inbox_fs "in" true = Raise ReError.
Proof.
  assert (H : forall page rest,
             FileSys.fitz_open Samples.inbox_fs "in" <> Ok (page :: rest))
    by (intros page rest; vm_compute; discriminate).
  split; [exact H |].
  exact (validate_ecg_format_unreadable_raises Samples.inbox_fs "in" true H).
Defined.

(** X5. A result that [check_graph_titles] returns is valid exactly
    when every label of the template has its expected count; it keeps
    the template as [expected_counts] and lists no label as missing. *)
Theorem check_graph_titles_valid_iff_counts (text : string)
    (titles : list (string * Z)) (r : Validation) :
  check_graph_titles text titles = Ok r ->
  (is_valid r = true <->
   Forall (fun item : string * Z => Dict.count item.1 (actual_counts r) = item.2) titles) /\
  expected_counts r = titles /\
  missing_titles (diagnostics r) = [].
Proof.
  intros H. destruct (check_graph_titles_returns _ _ _ H) as (He & Hm & _ & Hv).
  split; [exact Hv |]. split; assumption.
Qed.

Lemma check_graph_titles_valid_iff_counts_witness :
  check_graph_titles Samples.format1_text FORMAT1_TITLES = Ok Samples.format1_validation /\
  (is_valid Samples.format1_validation = true <->
   Forall (fun item : string * Z =>
             Dict.count item.1 (actual_counts Samples.format1_validation) = item.2)
          FORMAT1_TITLES).
Proof.
  assert (H : check_graph_titles Samples.format1_text FORMAT1_TITLES
              = Ok Samples.format1_validation) by (vm_compute; reflexivity).
  split; [exact H |].
  exact (proj1 (check_graph_titles_valid_iff_counts _ _ _ H)).
Defined.

Lemma analyze_fold_found actual titles :
  forall d,
    Forall (fun item : string * Z => Dict.count item.1 actual <> 0) titles ->
    found_titles (fold_left (analyze actual) titles d)
    = found_titles d ++
      (filter (fun item : string * Z => Dict.count item.1 actual = item.2) titles).*1.
Proof.
  induction titles as [|[t e] rest IH]; intros d Hpos.
  - simpl. rewrite app_nil_r. reflexivity.
  - apply Forall_cons in Hpos as [Ht Hrest]. cbn [fst] in Ht.
    cbn [fold_left]. rewrite (IH _ Hrest). rewrite filter_cons. cbn [fst snd].
    unfold analyze. apply Z.eqb_neq in Ht. rewrite Ht.
    destruct (decide (Dict.count t actual = e)) as [E | E].
    + rewrite (proj2 (Z.eqb_eq _ _) E). cbn [negb found_titles].
      rewrite fmap_cons. cbn [fst]. rewrite <- app_assoc. reflexivity.
    + rewrite (proj2 (Z.eqb_neq _ _) E). cbn [negb found_titles]. reflexivity.
Qed.

Lemma filter_all_by_length {A : Type} (P : A -> Prop) `{forall x, Decision (P x)}
    (l : list A) :
  length (filter P l) = length l -> Forall P l.
Proof.
  induction l as [|x l IH]; intros Hlen; [constructor |].
  rewrite filter_cons in Hlen. destruct (decide (P x)) as [Hx | Hx].
  - simpl in Hlen. constructor; [exact Hx | apply IH; lia].
  - pose proof (length_filter P l) as Hle. simpl in Hlen. lia.
Qed.

Lemma filter_all_id {A : Type} (P : A -> Prop) `{forall x, Decision (P x)}
    (l : list A) :
  Forall P l -> filter P l = l.
Proof.
  induction 1 as [|x l Hx _ IH]; [reflexivity |].
  rewrite filter_cons. destruct (decide (P x)) as [_ | Hn]; [| contradiction].
  f_equal. exact IH.
Qed.

(** X6. In a result that [check_graph_titles] returns, [found_titles]
    lists, in the order of the template, the labels whose count is the
    expected one; the result is valid exactly when that is every label
    of the template. *)
Theorem check_graph_titles_found_titles (text : string)
    (titles : list (string * Z)) (r : Validation) :
  check_graph_titles text titles = Ok r ->
  found_titles (diagnostics r)
  = (filter (fun item : string * Z =>
               Dict.count item.1 (actual_counts r) = item.2) titles).*1 /\
  (is_valid r = true <-> found_titles (diagnostics r) = titles.*1).
Proof.
  intros H.
  destruct (check_graph_titles_returns _ _ _ H) as (_ & _ & Hall & Hv).
  assert (Hfound : found_titles (diagnostics r)
                   = (filter (fun item : string * Z =>
                                Dict.count item.1 (actual_counts r) = item.2) titles).*1).
  { unfold check_graph_titles in H. inv_bind H. injection H as <-. simpl.
    rewrite analyze_fold_found; [reflexivity |].
    simpl in Hall. eapply Forall_impl; [exact Hall |]. intros item [_ Hpos]. lia. }
  split; [exact Hfound |]. rewrite Hv, Hfound. split.
  - intros Hforall. f_equal. apply filter_all_id. exact Hforall.
  - intros Heq.
    pose proof (filter_all_by_length
                  (fun item : string * Z => Dict.count item.1 (actual_counts r) = item.2)
                  titles) as Hall'.
    apply Hall'. apply (f_equal length) in Heq. rewrite !length_fmap in Heq. exact Heq.
Qed.

Lemma check_graph_titles_found_titles_witness :
  check_graph_titles Samples.other_text FORMAT1_TITLES = Ok Samples.other_validation /\
  found_titles (diagnostics Samples.other_validation)
  = (filter (fun item : string * Z =>
               Dict.count item.1 (actual_counts Samples.other_validation) = item.2)
       FORMAT1_TITLES).*1.
Proof.
  assert (H : check_graph_titles Samples.other_text FORMAT1_TITLES
              = Ok Samples.other_validation) by (vm_compute; reflexivity).
  split; [exact H |].
  exact (proj1 (check_graph_titles_found_titles _ _ _ H)).
Defined.

Lemma upper_char_idem (c : ascii) :
  PyStr.upper_char (PyStr.upper_char c) = PyStr.upper_char c.
Proof. destruct c as [[] [] [] [] [] [] [] []]; reflexivity. Qed.

Lemma upper_lower_char (c : ascii) :
  PyStr.upper_char (PyStr.lower_char c) = PyStr.upper_char c.
Proof. destruct c as [[] [] [] [] [] [] [] []]; reflexivity. Qed.

Lemma upper_idem (s : string) : PyStr.upper (PyStr.upper s) = PyStr.upper s.
Proof.
  induction s as [|c s IH]; [reflexivity |].
  simpl. rewrite upper_char_idem, IH. reflexivity.
Qed.

Lemma upper_lower (s : string) : PyStr.upper (PyStr.lower s) = PyStr.upper s.
Proof.
  induction s as [|c s IH]; [reflexivity |].
  simpl. rewrite upper_lower_char, IH. reflexivity.
Qed.

(** X7. Validation does not look at the case of the text: the text in
    upper case and the text in lower case give the result, or the
    error, of the text itself, for every template and so for the
    classification. *)
Theorem check_graph_titles_ignores_case (text : string) (titles : list (string * Z)) :
  check_graph_titles (PyStr.upper text) titles = check_graph_titles text titles /\
  check_graph_titles (PyStr.lower text) titles = check_graph_titles text titles /\
  check_all_formats (PyStr.lower text) = check_all_formats text.
Proof.
  assert (Hl : forall t, check_graph_titles (PyStr.lower text) t = check_graph_titles text t).
  { intros t. unfold check_graph_titles. rewrite upper_lower. reflexivity. }
  split; [| split].
  - unfold check_graph_titles. rewrite upper_idem. reflexivity.
  - apply Hl.
  - unfold check_all_formats, check_all_formats_in, ECG_FORMATS.
    cbn [check_all_formats_loop]. rewrite !Hl. reflexivity.
Qed.

(** X8. With the two templates of the script, and both checks
    returning, the classification is decided by the first template that
    is valid: "format1" when the first is, "format2" when the second
    is, no match when neither is.  The two are never valid together, so
    the warning about several matching formats is never reached. *)
Theorem check_all_formats_decides (text : string) (r1 r2 : Validation) :
  check_graph_titles text FORMAT1_TITLES = Ok r1 ->
  check_graph_titles text FORMAT2_TITLES = Ok r2 ->
  (is_valid r1 && is_valid r2 = false) /\
  check_all_formats text =
  Ok (if is_valid r1 then (Some "format1", Some r1)
      else if is_valid r2 then (Some "format2", Some r2)
      else (None, None)).
Proof.
  intros H1 H2.
  assert (Hex : is_valid r1 && is_valid r2 = false).
  { destruct (is_valid r1) eqn:V1; [| reflexivity].
    destruct (is_valid r2) eqn:V2; [| reflexivity].
    exfalso. exact (ECG_FORMATS_exclusive _ _ _ H1 H2 V1 V2). }
  split; [exact Hex |].
  unfold check_all_formats, check_all_formats_in, ECG_FORMATS.
  cbn [check_all_formats_loop]. rewrite H1. cbn [mbind result_bind].
  destruct (is_valid r1) eqn:V1; rewrite H2; cbn [mbind result_bind];
    destruct (is_valid r2) eqn:V2; try reflexivity.
  discriminate Hex.
Qed.

Lemma check_all_formats_decides_witness :
  check_graph_titles Samples.format1_text FORMAT1_TITLES = Ok Samples.format1_validation /\
  check_graph_titles Samples.format1_text FORMAT2_TITLES = Ok Samples.format1_as_format2 /\
  check_all_formats Samples.format1_text =
  Ok (if is_valid Samples.format1_validation
      then (Some "format1", Some Samples.format1_validation)
      else if is_valid Samples.format1_as_format2
           then (Some "format2", Some Samples.format1_as_format2)
           else (None, None)).
Proof.
  assert (H1 : check_graph_titles Samples.format1_text FORMAT1_TITLES
               = Ok Samples.format1_validation) by (vm_compute; reflexivity).
  assert (H2 : check_graph_titles Samples.format1_text FORMAT2_TITLES
               = Ok Samples.format1_as_format2) by (vm_compute; reflexivity).
  split; [exact H1 |]. split; [exact H2 |].
  exact (proj2 (check_all_formats_decides _ _ _ H1 H2)).
Defined.

Lemma check_all_formats_loop_match formats text :
  forall mf mr f res,
    check_all_formats_loop formats text mf mr = Ok (Some f, res) ->
    (exists t r,
        (f, t) ∈ formats /\ check_graph_titles text t = Ok r /\
        is_valid r = true /\ res = Some r) \/
    (mf = Some f /\ mr = res).
Proof.
  induction formats as [|[format_name format_titles] rest IH];
    intros mf mr f res H; cbn [check_all_formats_loop] in H.
  - injection H as -> ->. right. split; reflexivity.
  - inv_bind H. rename a into r, Ha into Hr.
    destruct (is_valid r) eqn:V.
    + destruct mf as [f0|]; [discriminate |].
      apply IH in H as [(t & r' & Hin & Ht & Hv & Hres) | [Hmf Hmr]].
      * left. exists t, r'. split; [right; exact Hin | tauto].
      * injection Hmf as <-. left. exists format_titles, r.
        split; [left |]. split; [exact Hr |]. split; [exact V | symmetry; exact Hmr].
    + apply IH in H as [(t & r' & Hin & Ht & Hv & Hres) | Hold].
      * left. exists t, r'. split; [right; exact Hin | tauto].
      * right. exact Hold.
Qed.

(** X9. For any table of formats: a format name that
    [check_all_formats] returns is a name of the table, and the results
    returned with it are those of [check_graph_titles] for a template
    under that name, and they are valid. *)
Theorem check_all_formats_match_is_valid (formats : list (string * list (string * Z)))
    (text : string) (f : string) (res : option Validation) :
  check_all_formats_in formats text = Ok (Some f, res) ->
  exists t r,
    (f, t) ∈ formats /\ check_graph_titles text t = Ok r /\
    is_valid r = true /\ res = Some r.
Proof.
  unfold check_all_formats_in. intros H.
  apply check_all_formats_loop_match in H as [H | [Hmf _]]; [exact H | discriminate].
Qed.

Lemma check_all_formats_match_is_valid_witness :
  check_all_formats_in ECG_FORMATS Samples.format1_text
    = Ok (Some "format1", Some Samples.format1_validation) /\
  exists t r,
    ("format1", t) ∈ ECG_FORMATS /\
    check_graph_titles Samples.format1_text t = Ok r /\
    is_valid r = true /\ Some Samples.format1_validation = Some r.
Proof.
  assert (H : check_all_formats_in ECG_FORMATS Samples.format1_text
              = Ok (Some "format1", Some Samples.format1_validation))
    by (vm_compute; reflexivity).
  split; [exact H |].
  exact (check_all_formats_match_is_valid _ _ _ _ H).
Defined.

Lemma show_diagnostics_after_check (text : string) out :
  check_all_formats text = Ok out -> show_diagnostics ECG_FORMATS text = Ok tt.
Proof.
  intros H. destruct (check_all_formats_both_checked _ _ H) as (r1 & r2 & H1 & H2).
  unfold ECG_FORMATS. cbn [show_diagnostics]. rewrite H1. cbn [mbind result_bind].
  rewrite H2. reflexivity.
Qed.

(** X10. The verbose flag changes what is printed only: with it and
    without it [validate_ecg_format] returns the same pair, or raises
    the same exception. *)
Theorem validate_ecg_format_verbose_same (fs : FileSys.FS) (pdf_path : string) :
  validate_ecg_format fs pdf_path true = validate_ecg_format fs pdf_path false.
Proof.
  unfold validate_ecg_format.
  destruct (check_all_formats (extract_text_from_first_page fs pdf_path))
    as [[mf res] | e] eqn:E; [| reflexivity].
  cbn [mbind result_bind andb].
  destruct (negb (is_match mf)); [| reflexivity].
  rewrite (show_diagnostics_after_check _ _ E). reflexivity.
Qed.

End ClassifierMore.

(** ** The sorter's folder driver *)

Section SorterMore.
Import SeparateFormats FileSys.

Lemma dict_sum_set_count (k : string) (d : list (string * Z)) :
  Notions.dict_sum (Dict.set k (Dict.count k d + 1) d) = Notions.dict_sum d + 1.
Proof.
  unfold Dict.count. induction d as [|[k' v'] r IH]; simpl.
  - lia.
  - destruct (String.eqb k' k) eqn:E; simpl.
    + lia.
    + rewrite IH. lia.
Qed.

Lemma copy2_keeps_files (fs fs' : FS) (src dst : string) :
  copy2 fs src dst = Ok fs' ->
  forall p, is_Some (files fs !! p) -> is_Some (files fs' !! p).
Proof.
  unfold copy2. intros H p Hp.
  destruct (files fs !! src) as [f|]; [| discriminate].
  destruct (String.eqb src _); [discriminate |].
  injection H as <-. simpl.
  match goal with |- is_Some (<[?d := _]> _ !! _) => destruct (decide (d = p)) as [-> | Hne] end.
  - rewrite lookup_insert_eq. eauto.
  - rewrite lookup_insert_ne by exact Hne. exact Hp.
Qed.

Section Loop.
Variable args : Args.
Variable incorrect_path : string.
Variable format_paths : list (string * string).

(** What a turn of the loop keeps: the files that are there, and the
    agreement of the counts per format with the count of correct
    files. *)
Lemma process_file_keeps (st : LoopState) (pdf_file : string) :
  let st' := process_file args incorrect_path format_paths st pdf_file in
  (forall p, is_Some (files (fs_of st) !! p) -> is_Some (files (fs_of st') !! p)) /\
  (Notions.dict_sum (format_stats st) = correct (stats st) ->
   Notions.dict_sum (format_stats st') = correct (stats st')).
Proof.
  unfold process_file, try_file.
  destruct (validate_ecg_format (fs_of st) pdf_file (verbose args))
    as [[matching_format results] | e];
    [destruct (is_match matching_format) |];
    cbn [fs_of stats format_stats];
    repeat match goal with
           | |- context [match copy2 ?a ?b ?c with _ => _ end] =>
               let E := fresh "E" in destruct (copy2 a b c) eqn:E
           end;
    cbn [fs_of stats format_stats add_correct add_incorrect correct incorrect total];
    (split;
     [ intros p Hp; first [exact Hp | eapply copy2_keeps_files; eassumption]
     | intros Hs; rewrite ?dict_sum_set_count; lia ]).
Qed.

Lemma process_files_keep (pdf_files : list string) :
  forall st,
    let st' := fold_left (process_file args incorrect_path format_paths) pdf_files st in
    (forall p, is_Some (files (fs_of st) !! p) -> is_Some (files (fs_of st') !! p)) /\
    (Notions.dict_sum (format_stats st) = correct (stats st) ->
     Notions.dict_sum (format_stats st') = correct (stats st')).
Proof.
  induction pdf_files as [|pdf_file rest IH]; intros st; simpl.
  - tauto.
  - destruct (process_file_keeps st pdf_file) as [K1 S1].
    destruct (IH (process_file args incorrect_path format_paths st pdf_file)) as [K2 S2].
    split; [intros p Hp; apply K2, K1, Hp | intros Hs; apply S2, S1, Hs].
Qed.

End Loop.

(** X11. The counts per format that [main] prints add up to its count
    of correct files: a file is counted under a format exactly when it
    is counted as correct. *)
Theorem main_format_stats_sum (script_dir : string) (args : Args) (fs : FS) :
  let outcome := main script_dir args fs in
  Notions.dict_sum (final_format_stats outcome) = correct (final_stats outcome).
Proof.
  unfold main.
  destruct (negb (isdir fs (input_folder args))); [reflexivity |].
  cbv zeta.
  destruct (fold_left _ ECG_FORMATS _) as [fs2 format_paths].
  cbn [final_format_stats final_stats].
  match goal with
  | |- context [fold_left (process_file ?a ?ip ?fp) ?l ?st] =>
      destruct (process_files_keep a ip fp l st) as [_ Hsum]
  end.
  apply Hsum. reflexivity.
Qed.

(** X12. [main] counts every listed file at least once and at most
    twice: the total lies between half and the whole of correct plus
    incorrect. *)
Theorem main_counts_between (script_dir : string) (args : Args) (fs : FS) :
  let s := final_stats (main script_dir args fs) in
  total s <= correct s + incorrect s <= 2 * total s.
Proof. apply main_counts_bounds. Qed.

Lemma makedirs_files (fs0 : FS) (d : string) : files (makedirs fs0 d) = files fs0.
Proof. reflexivity. Qed.

(** X13. [main] removes no file: every path that is a file before the
    run is a file after it.  When the input folder is no directory the
    run ends with code 1 and leaves the file system as it was, without
    making the output folders; otherwise it ends with code 0. *)
Theorem main_removes_nothing (script_dir : string) (args : Args) (fs : FS) :
  let outcome := main script_dir args fs in
  (forall p, is_Some (files fs !! p) -> is_Some (files (final_fs outcome) !! p)) /\
  (isdir fs (input_folder args) = false -> code outcome = 1 /\ final_fs outcome = fs) /\
  (isdir fs (input_folder args) = true -> code outcome = 0).
Proof.
  unfold main.
  destruct (isdir fs (input_folder args)); cbn [negb].
  - cbv zeta. unfold ECG_FORMATS. cbn [fold_left].
    cbn [final_fs code].
    split; [| split; [discriminate | reflexivity]].
    match goal with
    | |- context [fold_left (process_file ?a ?ip ?fp) ?l ?st] =>
        destruct (process_files_keep a ip fp l st) as [Hkeep _]
    end.
    intros p Hp. apply Hkeep. exact Hp.
  - cbn [final_fs code]. split; [tauto |]. split; [tauto | discriminate].
Qed.

Lemma main_removes_nothing_witness :
  is_Some (files Samples.sorted_fs !! "out/Correct/format1/a.pdf") /\
  is_Some (files (final_fs (main "scripts" Samples.sorted_args Samples.sorted_fs))
             !! "out/Correct/format1/a.pdf") /\
  isdir Samples.sorted_fs "nowhere" = false /\
  final_fs (main "scripts" (mkArgs "nowhere" None false) Samples.sorted_fs)
  = Samples.sorted_fs.
Proof.
  assert (H1 : is_Some (files Samples.sorted_fs !! "out/Correct/format1/a.pdf"))
    by (vm_compute; eauto).
  assert (H2 : isdir Samples.sorted_fs "nowhere" = false) by (vm_compute; reflexivity).
  split; [exact H1 |]. split.
  - exact (proj1 (main_removes_nothing "scripts" Samples.sorted_args Samples.sorted_fs)
             _ H1).
  - split; [exact H2 |].
    exact (proj2 (proj1 (proj2 (main_removes_nothing "scripts"
                                  (mkArgs "nowhere" None false) Samples.sorted_fs)) H2)).
Defined.

End SorterMore.

(** ** The censor: what is saved *)

Section CensorMore.
Import PyStr PdfCensor.

Lemma all_rectangles_from (coordinates_dict : list (Z * list (list Q))) :
  forall acc,
    fold_left (fun acc '(_, rect_list) => acc ++ rect_list) coordinates_dict acc
    = acc ++ concat coordinates_dict.*2.
Proof.
  induction coordinates_dict as [|[page_num rect_list] rest IH]; intros acc; simpl.
  - rewrite app_nil_r. reflexivity.
  - rewrite IH, app_assoc. reflexivity.
Qed.

(** X14. The page numbers of the coordinates dictionary are not looked
    at: the rectangles of all its entries, in order, are applied to the
    first page, and a dictionary that lists the same rectangles under
    page 0 gives the same redacted document. *)
Theorem censor_doc_ignores_page_numbers (doc : Fitz.Doc)
    (coordinates_dict : list (Z * list (list Q))) (include_info : bool) :
  all_rectangles_of coordinates_dict = concat coordinates_dict.*2 /\
  censor_doc doc coordinates_dict include_info
  = censor_doc doc [(0, concat coordinates_dict.*2)] include_info.
Proof.
  assert (H1 : all_rectangles_of coordinates_dict = concat coordinates_dict.*2).
  { unfold all_rectangles_of. rewrite all_rectangles_from. reflexivity. }
  assert (H2 : all_rectangles_of [(0, concat coordinates_dict.*2)]
               = concat coordinates_dict.*2) by reflexivity.
  split; [exact H1 |].
  unfold censor_doc. rewrite H1, H2. reflexivity.
Qed.



Lemma extract_gender_cases (text : string) :
  extract_gender text = None \/
  exists g, extract_gender text = Some g /\ truthy g = true.
Proof.
  unfold extract_gender.
  destruct (contains "Masculino" text); [right; eexists; split; reflexivity |].
  destruct (contains "Femenino" text); [right; eexists; split; reflexivity |].
  left. reflexivity.
Qed.

Lemma extract_age_cases (text : string) :
  extract_age text = None \/
  exists a, extract_age text = Some a /\ truthy a = true.
Proof.
  unfold extract_age.
  destruct (Re.search_age text) as [digits|]; [| left; reflexivity].
  right. eexists. split; reflexivity.
Qed.

Lemma info_of_ok (page : Fitz.Page) (W : Q) (i : nat) (r : list Q) entry :
  Spec.info_of page W i r = Some entry -> Notions.entry_ok entry.
Proof.
  unfold Spec.info_of.
  destruct (Spec.mirrored W r) as [region|]; cbn [mbind option_bind]; [| discriminate].
  rewrite yields_info_is_set.
  destruct (is_set _ || is_set _) eqn:E; [| discriminate].
  intros H. injection H as <-. unfold Notions.entry_ok. cbn [snd gender age].
  split; [exact E |]. split; [apply extract_gender_cases | apply extract_age_cases].
Qed.

Lemma infos_from_ok (page : Fitz.Page) (W : Q) (rects : list (list Q)) :
  forall i, Forall Notions.entry_ok (Spec.infos_from page W i rects).
Proof.
  induction rects as [|r rest IH]; intros i; cbn [Spec.infos_from]; [constructor |].
  destruct (Spec.info_of page W i r) as [entry|] eqn:E; [| apply IH].
  constructor; [exact (info_of_ok _ _ _ _ _ E) | apply IH].
Qed.

Lemma third_pass_from (extracted_info : list (nat * Info)) :
  Forall Notions.entry_ok extracted_info ->
  forall acc,
    fold_left (fun acc '(_, info) =>
                 let text_items :=
                   ((if is_set (gender info) then [default EmptyString (gender info)] else []) ++
                    (if is_set (age info) then [default EmptyString (age info)] else []))%list in
                 match text_items with
                 | [] => acc
                 | _ =>
                     let text := join " " text_items in
                     (acc ++ [Fitz.mkTextInsert (90%Q, 784%Q) text 10 (1, 1, 1) 90])%list
                 end)
              extracted_info acc
    = acc ++ map (fun entry => Notions.overlay_of entry.2) extracted_info.
Proof.
  induction 1 as [|[i info] rest Hok _ IH]; intros acc; cbn [fold_left map].
  - rewrite app_nil_r. reflexivity.
  - rewrite IH. clear IH. destruct Hok as (Hany & Hg & Ha). cbn [snd] in *.
    unfold Notions.overlay_of, Notions.overlay_text.
    destruct Hg as [Hg | (g & Hg & Tg)]; destruct Ha as [Ha | (a & Ha & Ta)];
      rewrite Hg, Ha in *; cbn [is_set] in *; rewrite ?Tg, ?Ta in *;
      cbn [default app join snd]; try discriminate;
      rewrite <- app_assoc; reflexivity.
Qed.

(** X16. With [include_info], the saved page gets one label for every
    rectangle that yielded a gender or an age, in the order of the
    rectangles: the gender and the age with one blank between them, or
    the one that was found; each at the point (90, 784), white, size
    10, turned by 90 degrees.  Without [include_info] no label is
    written. *)
Theorem censor_doc_labels (page : Fitz.Page) (others : list Fitz.Page)
    (coordinates_dict : list (Z * list (list Q))) (include_info : bool)
    (saved : Fitz.Doc) :
  censor_doc (page :: others) coordinates_dict include_info = Some saved ->
  exists page',
    saved = [page'] /\
    Fitz.inserts page' =
    Fitz.inserts page ++
    (if include_info
     then map (fun entry => Notions.overlay_of entry.2)
            (Spec.infos_from page (Fitz.width page) 0
               (all_rectangles_of coordinates_dict))
     else []).
Proof.
  unfold censor_doc.
  destruct (negb (truthy (strip (Fitz.get_text page)))); [discriminate |].
  rewrite first_pass_spec, app_nil_l.
  destruct (Spec.infos_from page (Fitz.width page) 0
              (all_rectangles_of coordinates_dict)) as [|entry entries] eqn:E;
    [discriminate |].
  intros H. injection H as <-. eexists. split.
  - destruct others; reflexivity.
  - cbn [Fitz.inserts]. destruct include_info; [| reflexivity].
    unfold third_pass. rewrite third_pass_from, app_nil_l; [reflexivity |].
    rewrite <- E. apply infos_from_ok.
Qed.

Lemma censor_doc_labels_witness :
  censor_doc [Samples.page_of "Masculino (45 años)"] coordinates true
    = Some Samples.censored_doc /\
  exists page',
    Samples.censored_doc = [page'] /\
    Fitz.inserts page' =
    [] ++ map (fun entry => Notions.overlay_of entry.2)
            (Spec.infos_from (Samples.page_of "Masculino (45 años)") 595 0
               (all_rectangles_of coordinates)).
Proof.
  assert (H : censor_doc [Samples.page_of "Masculino (45 años)"] coordinates true
              = Some Samples.censored_doc) by (vm_compute; reflexivity).
  split; [exact H |].
  exact (censor_doc_labels _ _ _ _ _ H).
Defined.

(** X17. Whether labels are asked for or not makes no difference to
    what [censor_pdf] returns (the path, [None] or the exception), to
    which paths hold a file afterwards, or to the regions that are
    redacted. *)
Theorem censor_pdf_include_info_same (fs : FileSys.FS) (pdf_path : string)
    (coordinates_dict : list (Z * list (list Q))) (output_dir : option string) :
  let with_info := censor_pdf fs pdf_path coordinates_dict output_dir true in
  let without := censor_pdf fs pdf_path coordinates_dict output_dir false in
  with_info.2 = without.2 /\
  (forall p, is_Some (FileSys.files with_info.1 !! p) <->
             is_Some (FileSys.files without.1 !! p)) /\
  FileSys.dirs with_info.1 = FileSys.dirs without.1 /\
  (forall doc, map Fitz.redactions <$> censor_doc doc coordinates_dict true
               = map Fitz.redactions <$> censor_doc doc coordinates_dict false).
Proof.
  assert (Hdoc : forall doc,
             map Fitz.redactions <$> censor_doc doc coordinates_dict true
             = map Fitz.redactions <$> censor_doc doc coordinates_dict false).
  { intros [|page others]; [reflexivity |]. unfold censor_doc.
    destruct (negb (truthy (strip (Fitz.get_text page)))); [reflexivity |].
    destruct (first_pass page (Fitz.width page) 0
                (all_rectangles_of coordinates_dict) []); reflexivity. }
  cbv zeta. unfold censor_pdf.
  destruct (FileSys.fitz_open _ pdf_path) as [doc | e];
    [| split; [reflexivity |]; split; [tauto |]; split; [reflexivity | exact Hdoc]].
  specialize (Hdoc doc) as Hd.
  destruct (censor_doc doc coordinates_dict true) as [s1|];
    destruct (censor_doc doc coordinates_dict false) as [s2|];
    try discriminate Hd; cbn [fst snd].
  - split; [reflexivity |]. split; [| split; [reflexivity | exact Hdoc]].
    intros p. cbn [FileSys.save FileSys.files].
    destruct (decide (output_path_of pdf_path output_dir = p)) as [-> | Hne].
    + rewrite !lookup_insert_eq. split; eauto.
    + rewrite !lookup_insert_ne by exact Hne. tauto.
  - split; [reflexivity |]. split; [tauto |]. split; [reflexivity | exact Hdoc].
Qed.

(** *** The age pattern *)












(** *** The entries of [extracted_info] *)

Lemma info_of_inv (page : Fitz.Page) (W : Q) (k : nat) (r : list Q) (i : nat) info :
  Spec.info_of page W k r = Some (i, info) ->
  i = k /\
  exists x1 y1 x2 y2,
    r = [x1; y1; x2; y2] /\
    rect info = Fitz.mkRect x1 (W - y2) x2 (W - y1) /\
    gender info = extract_gender (Fitz.get_text_clip page (rect info)) /\
    age info = extract_age (Fitz.get_text_clip page (rect info)).
Proof.
  unfold Spec.info_of.
  destruct r as [|x1 [|y1 [|x2 [|y2 [|z r]]]]]; try discriminate.
  cbn [Spec.mirrored mbind option_bind].
  destruct (Spec.yields_info page _); [| discriminate].
  intros H. injection H as <- <-. split; [reflexivity |].
  exists x1, y1, x2, y2. repeat split; reflexivity.
Qed.

Lemma infos_from_elem (page : Fitz.Page) (W : Q) (rects : list (list Q)) :
  forall k i info,
    (i, info) ∈ Spec.infos_from page W k rects ->
    (k <= i)%nat /\
    exists r, rects !! (i - k)%nat = Some r /\
              Spec.info_of page W i r = Some (i, info).
Proof.
  induction rects as [|r rest IH]; intros k i info Hin; cbn [Spec.infos_from] in Hin.
  - inversion Hin.
  - assert (Hrest : (i, info) ∈ Spec.infos_from page W (S k) rest ->
                    (k <= i)%nat /\
                    exists r0, (r :: rest) !! (i - k)%nat = Some r0 /\
                               Spec.info_of page W i r0 = Some (i, info)).
    { intros H. destruct (IH _ _ _ H) as (Hle & r0 & Hr0 & Hinfo).
      split; [lia |]. exists r0. split; [| exact Hinfo].
      replace (i - k)%nat with (S (i - S k)) by lia. exact Hr0. }
    destruct (Spec.info_of page W k r) as [entry|] eqn:E; [| exact (Hrest Hin)].
    apply elem_of_cons in Hin as [<- | Hin]; [| exact (Hrest Hin)].
    destruct (info_of_inv _ _ _ _ _ _ E) as [-> _].
    split; [lia |]. exists r. rewrite Nat.sub_diag. split; [reflexivity | exact E].
Qed.

(** X19. Every entry of [extracted_info] is filed under the index its
    rectangle has in the list of all rectangles; that rectangle has
    four numbers, the entry's region is its mirrored region, and the
    gender and age of the entry are those read from the text of that
    region, of which at least one was found. *)
Theorem extracted_info_entries (page : Fitz.Page) (W : Q) (rects : list (list Q))
    (i : nat) (info : Info) :
  (i, info) ∈ first_pass page W 0 rects [] ->
  exists x1 y1 x2 y2,
    rects !! i = Some [x1; y1; x2; y2] /\
    rect info = Fitz.mkRect x1 (W - y2) x2 (W - y1) /\
    gender info = extract_gender (Fitz.get_text_clip page (rect info)) /\
    age info = extract_age (Fitz.get_text_clip page (rect info)) /\
    is_set (gender info) || is_set (age info) = true.
Proof.
  rewrite first_pass_spec, app_nil_l. intros Hin.
  destruct (infos_from_elem _ _ _ _ _ _ Hin) as (_ & r & Hr & Hinfo).
  rewrite Nat.sub_0_r in Hr.
  destruct (info_of_inv _ _ _ _ _ _ Hinfo) as (_ & x1 & y1 & x2 & y2 & -> & H1 & H2 & H3).
  exists x1, y1, x2, y2. repeat split; try assumption.
  exact (proj1 (info_of_ok _ _ _ _ _ Hinfo)).
Qed.

Lemma extracted_info_entries_witness :
  Samples.first_entry
    ∈ first_pass (Samples.page_of "Masculino (45 años)") 595 0
        (all_rectangles_of coordinates) [] /\
  exists x1 y1 x2 y2,
    all_rectangles_of coordinates !! Samples.first_entry.1 = Some [x1; y1; x2; y2] /\
    rect Samples.first_entry.2 = Fitz.mkRect x1 (595 - y2) x2 (595 - y1) /\
    gender Samples.first_entry.2
    = extract_gender (Fitz.get_text_clip (Samples.page_of "Masculino (45 años)")
                        (rect Samples.first_entry.2)) /\
    age Samples.first_entry.2
    = extract_age (Fitz.get_text_clip (Samples.page_of "Masculino (45 años)")
                     (rect Samples.first_entry.2)) /\
    is_set (gender Samples.first_entry.2) || is_set (age Samples.first_entry.2) = true.
Proof.
  assert (H : Samples.first_entry
                ∈ first_pass (Samples.page_of "Masculino (45 años)") 595 0
                    (all_rectangles_of coordinates) [])
    by (apply list_elem_of_In; vm_compute; left; reflexivity).
  split; [exact H |].
  exact (extracted_info_entries _ _ _ Samples.first_entry.1 Samples.first_entry.2 H).
Defined.

(** X20. For a path that [fitz.open] refuses (no such file, or not a
    PDF), [censor_pdf] ends with that exception and writes no file; the
    output directory, when one is given, has been made all the same. *)
Theorem censor_pdf_unreadable_raises (fs : FileSys.FS) (pdf_path : string)
    (coordinates_dict : list (Z * list (list Q))) (output_dir : option string)
    (include_info : bool) (e : exn) :
  FileSys.fitz_open fs pdf_path = Raise e ->
  let out := censor_pdf fs pdf_path coordinates_dict output_dir include_info in
  out.2 = Raise e /\
  FileSys.files out.1 = FileSys.files fs /\
  (forall d, output_dir = Some d -> d <> EmptyString -> FileSys.isdir out.1 d = true).
Proof.
  intros H out. subst out. unfold censor_pdf. rewrite censor_pdf_open, H.
  cbn [fst snd]. split; [reflexivity |].
  split; [apply censor_pdf_files_before_open |].
  intros d -> Hd. cbn [is_set default].
  assert (Ht : truthy d = true) by (destruct d; [contradiction | reflexivity]).
  rewrite Ht. unfold FileSys.isdir, FileSys.makedirs. cbn [FileSys.dirs].
  apply bool_decide_eq_true_2. apply elem_of_union_l, elem_of_singleton. reflexivity.
Qed.

Lemma censor_pdf_unreadable_raises_witness :
  FileSys.fitz_open Samples.inbox_fs "in/missing.pdf" = Raise FileNotFoundError /\
  (censor_pdf Samples.inbox_fs "in/missing.pdf" coordinates (Some "out") true).2
  = Raise FileNotFoundError /\
  FileSys.isdir
    (censor_pdf Samples.inbox_fs "in/missing.pdf" coordinates (Some "out") true).1
    "out" = true.
Proof.
  assert (H : FileSys.fitz_open Samples.inbox_fs "in/missing.pdf"
              = Raise FileNotFoundError) by (vm_compute; reflexivity).
  split; [exact H |].
  pose proof (censor_pdf_unreadable_raises Samples.inbox_fs "in/missing.pdf"
                coordinates (Some "out") true _ H) as (R & _ & D).
  split; [exact R |].
  exact (D "out" eq_refl ltac:(discriminate)).
Defined.

End CensorMore.

(** ** The censor's folder driver *)

Section CensorFolderMore.
Import PdfCensor FileSys.

Lemma censor_pdf_keeps_files fs pdf_path coordinates_dict output_dir include_info :
  forall p,
    is_Some (files fs !! p) ->
    is_Some (files (censor_pdf fs pdf_path coordinates_dict output_dir include_info).1 !! p).
Proof.
  intros p Hp. unfold censor_pdf.
  destruct (fitz_open _ pdf_path) as [doc | e]; cbn [fst];
    [| rewrite censor_pdf_files_before_open; exact Hp].
  destruct (censor_doc doc coordinates_dict include_info); cbn [fst save files];
    [| rewrite censor_pdf_files_before_open; exact Hp].
  destruct (decide (output_path_of pdf_path output_dir = p)) as [-> | Hne].
  - rewrite lookup_insert_eq. eauto.
  - rewrite lookup_insert_ne by exact Hne.
    rewrite censor_pdf_files_before_open. exact Hp.
Qed.

Lemma censor_pdf_path_saved fs pdf_path coordinates_dict output_dir include_info fs1 q :
  censor_pdf fs pdf_path coordinates_dict output_dir include_info = (fs1, Ok (Some q)) ->
  is_Some (files fs1 !! q).
Proof.
  unfold censor_pdf.
  destruct (fitz_open _ pdf_path) as [doc | e]; [| discriminate].
  destruct (censor_doc doc coordinates_dict include_info); [| discriminate].
  intros H. injection H as <- <-. cbn [save files].
  rewrite lookup_insert_eq. eauto.
Qed.

Lemma censor_pdf_no_path_files fs pdf_path coordinates_dict output_dir include_info :
  (forall q, (censor_pdf fs pdf_path coordinates_dict output_dir include_info).2
             <> Ok (Some q)) ->
  files (censor_pdf fs pdf_path coordinates_dict output_dir include_info).1 = files fs.
Proof.
  unfold censor_pdf.
  destruct (fitz_open _ pdf_path) as [doc | e]; cbn [fst snd];
    [| intros _; apply censor_pdf_files_before_open].
  destruct (censor_doc doc coordinates_dict include_info); cbn [fst snd].
  - intros H. exfalso. exact (H _ eq_refl).
  - intros _. apply censor_pdf_files_before_open.
Qed.

Lemma copy2_result (fs fs' : FS) (src dst : string) :
  copy2 fs src dst = Ok fs' ->
  exists f dst',
    files fs !! src = Some f /\
    (dst' = dst \/ dst' = PosixPath.join dst (PosixPath.basename src)) /\
    files fs' = <[dst' := f]> (files fs).
Proof.
  unfold copy2. intros H.
  destruct (files fs !! src) as [f|]; [| discriminate].
  destruct (String.eqb src _); [discriminate |].
  injection H as <-. exists f. eexists. split; [reflexivity |].
  split; [| reflexivity]. destruct (isdir fs dst); tauto.
Qed.

(** X21. When [process_pdf_folder] returns, the processed and the
    failed files together are as many as the names of the folder that
    end in ".pdf", whatever their case; for a folder that does not
    exist both lists are empty. *)
Theorem process_pdf_folder_counts_once fs folder_path coordinates_dict output_dir
    include_info st :
  process_pdf_folder fs folder_path coordinates_dict output_dir include_info = Ok st ->
  let out := match output_dir with
             | None => PosixPath.join (PosixPath.dirname folder_path) "Censored PDFs"
             | Some d => d
             end in
  (exists_ (makedirs fs out) folder_path = false /\ Spec.counted st = 0%nat) \/
  (exists file_names,
      listdir (makedirs fs out) folder_path = Ok file_names /\
      Spec.counted st = length (filter (fun n => Spec.is_pdf_name n = true) file_names)).
Proof. apply process_pdf_folder_counts. Qed.

Lemma process_pdf_folder_counts_once_witness :
  process_pdf_folder Samples.inbox_fs "in" coordinates (Some "out") true
    = Ok Samples.inbox_done /\
  listdir (makedirs Samples.inbox_fs "out") "in" = Ok ["a.pdf"; "b.pdf"] /\
  Spec.counted Samples.inbox_done = 2%nat.
Proof.
  assert (H : process_pdf_folder Samples.inbox_fs "in" coordinates (Some "out") true
              = Ok Samples.inbox_done) by (vm_compute; reflexivity).
  assert (L : listdir (makedirs Samples.inbox_fs "out") "in" = Ok ["a.pdf"; "b.pdf"])
    by (vm_compute; reflexivity).
  split; [exact H |]. split; [exact L |].
  destruct (process_pdf_folder_counts_once _ _ _ _ _ _ H)
    as [[Hex _] | (names & Hnames & Hcount)].
  - exfalso. vm_compute in Hex. discriminate Hex.
  - cbv zeta in Hnames. rewrite L in Hnames. injection Hnames as <-. exact Hcount.
Defined.

Section Loop.
Variable folder_path : string.
Variable coordinates_dict : list (Z * list (list Q)).
Variable output_dir : string.
Variable include_info : bool.

(** What a turn of the loop keeps: the files that are there, and that
    the processed paths are files. *)
Lemma process_file_keeps_files (st st' : FolderState) (file_name : string) :
  process_file folder_path coordinates_dict output_dir include_info st file_name = Ok st' ->
  (forall p, is_Some (files (fs_of st) !! p) -> is_Some (files (fs_of st') !! p)) /\
  (forall q, q ∈ processed_files st' ->
             q ∈ processed_files st \/ is_Some (files (fs_of st') !! q)).
Proof.
  unfold process_file.
  destruct (PyStr.endswith ".pdf" (PyStr.lower file_name));
    [| intros H; injection H as <-; tauto].
  unfold try_file.
  pose proof (censor_pdf_keeps_files (fs_of st) (PosixPath.join folder_path file_name)
                coordinates_dict (Some output_dir) include_info) as Hkeep.
  destruct (censor_pdf (fs_of st) (PosixPath.join folder_path file_name)
              coordinates_dict (Some output_dir) include_info) as [fs1 [o | e]] eqn:E;
    cbn [fst] in Hkeep.
  - destruct (is_set o) eqn:Eo.
    + intros H. injection H as <-. cbn [fs_of processed_files].
      split; [exact Hkeep |].
      intros q Hq. apply elem_of_app in Hq as [Hq | Hq]; [left; exact Hq |].
      apply list_elem_of_singleton in Hq. subst q. right.
      destruct o as [q|]; [| discriminate Eo].
      exact (censor_pdf_path_saved _ _ _ _ _ _ _ E).
    + destruct (copy2 (makedirs fs1 (failed_dir output_dir)) _ _) as [fs3 | e] eqn:Ecopy.
      * intros H. injection H as <-. cbn [fs_of processed_files].
        split; [| tauto].
        intros p Hp. apply (copy2_keeps_files _ _ _ _ Ecopy). exact (Hkeep p Hp).
      * cbn [fs_of]. rewrite makedirs_twice, Ecopy. discriminate.
  - cbn [fs_of failed_files processed_files]. intros H. inv_bind H.
    injection H as <-. cbn [fs_of processed_files]. split; [| tauto].
    intros p Hp. apply (copy2_keeps_files _ _ _ _ Ha). exact (Hkeep p Hp).
Qed.

Lemma process_files_keep_files (file_names : list string) :
  forall st st',
    process_files folder_path coordinates_dict output_dir include_info st file_names
    = Ok st' ->
    (forall q, q ∈ processed_files st -> is_Some (files (fs_of st) !! q)) ->
    (forall p, is_Some (files (fs_of st) !! p) -> is_Some (files (fs_of st') !! p)) /\
    (forall q, q ∈ processed_files st' -> is_Some (files (fs_of st') !! q)).
Proof.
  induction file_names as [|file_name rest IH]; intros st st' H Hinv; simpl in H.
  - injection H as <-. tauto.
  - inv_bind H. rename a into st1.
    destruct (process_file_keeps_files _ _ _ Ha) as [K1 P1].
    destruct (IH _ _ H) as [K2 P2].
    + intros q Hq. destruct (P1 q Hq) as [Hold | Hnew]; [| exact Hnew].
      apply K1, Hinv, Hold.
    + split; [intros p Hp; apply K2, K1, Hp | exact P2].
Qed.

End Loop.

(** X22. [process_pdf_folder] removes no file: every path that is a
    file before the run is a file when it returns; and every path in
    the list it returns is a file then. *)
Theorem process_pdf_folder_removes_nothing fs folder_path coordinates_dict output_dir
    include_info st :
  process_pdf_folder fs folder_path coordinates_dict output_dir include_info = Ok st ->
  (forall p, is_Some (files fs !! p) -> is_Some (files (fs_of st) !! p)) /\
  (forall q, q ∈ processed_files st -> is_Some (files (fs_of st) !! q)).
Proof.
  unfold process_pdf_folder. intros H.
  destruct (negb (exists_ _ folder_path)).
  - injection H as <-. cbn [fs_of processed_files]. split; [tauto |].
    intros q Hq. inversion Hq.
  - inv_bind H. apply process_files_keep_files in H; [exact H |].
    intros q Hq. inversion Hq.
Qed.

Lemma process_pdf_folder_removes_nothing_witness :
  process_pdf_folder Samples.inbox_fs "in" coordinates (Some "out") true
    = Ok Samples.inbox_done /\
  is_Some (files (fs_of Samples.inbox_done) !! "in/b.pdf") /\
  is_Some (files (fs_of Samples.inbox_done) !! "out/b_censored.pdf").
Proof.
  assert (H : process_pdf_folder Samples.inbox_fs "in" coordinates (Some "out") true
              = Ok Samples.inbox_done) by (vm_compute; reflexivity).
  destruct (process_pdf_folder_removes_nothing _ _ _ _ _ _ H) as [K P].
  split; [exact H |]. split.
  - apply K. vm_compute. eauto.
  - apply P. apply list_elem_of_In. vm_compute. left. reflexivity.
Defined.

(** X23. A '.pdf' file for which [censor_pdf] gives no path ([None]
    or an exception), in a turn of the loop that ends normally: its
    name is added to the failed files, once, the processed files stay
    as they were, and the file is copied as it is under the folder
    "Failed" of the output directory (or into a directory of that very
    name, as [shutil.copy2] does). *)
Theorem failed_file_is_copied folder_path coordinates_dict output_dir include_info
    (st st' : FolderState) (file_name : string) :
  process_file folder_path coordinates_dict output_dir include_info st file_name = Ok st' ->
  Spec.is_pdf_name file_name = true ->
  (forall q, (censor_pdf (fs_of st) (PosixPath.join folder_path file_name)
                coordinates_dict (Some output_dir) include_info).2 <> Ok (Some q)) ->
  failed_files st' = failed_files st ++ [file_name] /\
  processed_files st' = processed_files st /\
  exists f dst,
    files (fs_of st) !! PosixPath.join folder_path file_name = Some f /\
    files (fs_of st') !! dst = Some f /\
    (dst = PosixPath.join (PosixPath.join output_dir "Failed") file_name \/
     dst = PosixPath.join (PosixPath.join (PosixPath.join output_dir "Failed") file_name)
             (PosixPath.basename (PosixPath.join folder_path file_name))).
Proof.
  unfold process_file, Spec.is_pdf_name. intros H Hpdf Hnone. rewrite Hpdf in H.
  unfold try_file in H.
  pose proof (censor_pdf_no_path_files _ _ _ _ _ Hnone) as Hfiles.
  assert (Hcopy : forall fs1 fs3,
             files fs1 = files (fs_of st) ->
             copy2 (makedirs fs1 (failed_dir output_dir))
               (PosixPath.join folder_path file_name)
               (PosixPath.join (failed_dir output_dir) file_name) = Ok fs3 ->
             exists f dst,
               files (fs_of st) !! PosixPath.join folder_path file_name = Some f /\
               files fs3 !! dst = Some f /\
               (dst = PosixPath.join (PosixPath.join output_dir "Failed") file_name \/
                dst = PosixPath.join
                        (PosixPath.join (PosixPath.join output_dir "Failed") file_name)
                        (PosixPath.basename (PosixPath.join folder_path file_name)))).
  { intros fs1 fs3 Hf Hc.
    destruct (copy2_result _ _ _ _ Hc) as (f & dst & Hsrc & Hdst & Hnew).
    cbn [makedirs files] in Hsrc, Hnew. rewrite Hf in Hsrc.
    exists f, dst. split; [exact Hsrc |]. split; [| exact Hdst].
    rewrite Hnew. apply lookup_insert_eq. }
  destruct (censor_pdf (fs_of st) (PosixPath.join folder_path file_name)
              coordinates_dict (Some output_dir) include_info) as [fs1 [o | e]];
    cbn [fst snd] in *.
  - destruct o as [q|]; [exfalso; exact (Hnone q eq_refl) |].
    cbn [is_set] in H.
    destruct (copy2 (makedirs fs1 (failed_dir output_dir)) _ _) as [fs3 | e] eqn:Ecopy.
    + injection H as <-. cbn [fs_of failed_files processed_files].
      split; [reflexivity |]. split; [reflexivity |].
      exact (Hcopy _ _ Hfiles Ecopy).
    + cbn [fs_of] in H. rewrite makedirs_twice, Ecopy in H. discriminate.
  - cbn [fs_of failed_files processed_files] in H. inv_bind H. injection H as <-.
    cbn [fs_of failed_files processed_files].
    split; [reflexivity |]. split; [reflexivity |].
    exact (Hcopy _ _ Hfiles Ha).
Qed.

Lemma failed_file_is_copied_witness :
  process_file "in" coordinates "out" true
    (mkFolderState (makedirs Samples.inbox_fs "out") [] []) "a.pdf"
    = Ok Samples.inbox_after_a /\
  Spec.is_pdf_name "a.pdf" = true /\
  failed_files Samples.inbox_after_a = [] ++ ["a.pdf"] /\
  processed_files Samples.inbox_after_a = [].
Proof.
  assert (H : process_file "in" coordinates "out" true
                (mkFolderState (makedirs Samples.inbox_fs "out") [] []) "a.pdf"
              = Ok Samples.inbox_after_a) by (vm_compute; reflexivity).
  assert (Hn : forall q,
             (censor_pdf (fs_of (mkFolderState (makedirs Samples.inbox_fs "out") [] []))
                (PosixPath.join "in" "a.pdf") coordinates (Some "out") true).2
             <> Ok (Some q)) by (intros q; vm_compute; discriminate).
  split; [exact H |]. split; [reflexivity |].
  destruct (failed_file_is_copied _ _ _ _ _ _ _ H eq_refl Hn) as (F & P & _).
  split; [exact F | exact P].
Defined.

End CensorFolderMore.
